(** * Verification of the image-labelling Lambda functions

    A shallow embedding of the four handlers of the repository
    ([AnalyseImageFunction.py], [sqs_poller.py], [StartModelFunction.py],
    [StopModelFunction.py]) and the properties their specification states.

    Conventions of the embedding:
    - a Python exception is a value of [exn]; code that can raise returns a
      [result];
    - calls to AWS and to the document store are answered by a [World]: each
      operation is a function of the calls made so far (the [trace]) and of
      its arguments, so a backend may answer the same request differently
      over time;
    - every handler threads the trace, so "no call was made" and "the body
      that was sent" are statements about the final trace;
    - a [str] is a [string], the sequence of the bytes of its UTF-8 text:
      ['+'], ['/'], the space and the decimal digits are single bytes that
      occur in no longer sequence;
    - [logger] calls do not influence control flow or results and are left
      out. *)

From Stdlib Require Import ZArith String Ascii List Floats.SpecFloat.
From Stdlib Require Import Decimal DecimalFacts DecimalN DecimalString.
From stdpp Require Import base strings gmap list.

Set Warnings "-register-all".
Open Scope string_scope.
Open Scope list_scope.

(** ** Python values, exceptions and the few built-ins the handlers use *)

Module Py.

(** Exception classes that the handlers raise, catch or let through.
    [OtherException] stands for any further subclass of [Exception] (for
    instance botocore's parameter-validation and connection errors, which are
    not [ClientError]). *)
Inductive exn : Type :=
  | ClientError
  | JSONDecodeError
  | RequestException
  | EnvironmentError (msg : string)
  | KeyError
  | IndexError
  | TypeError
  | AttributeError
  | ValueError
  | OtherException.

Inductive result (A : Type) : Type :=
  | Ok (a : A)
  | Raise (e : exn).
Arguments Ok {A} a.
Arguments Raise {A} e.

(** What [json.loads] produces: [None], [bool], [int], [float], [str],
    [list] and [dict] with string keys. *)
Inductive json : Type :=
  | JNull
  | JBool (b : bool)
  | JInt (z : Z)
  | JFloat (f : spec_float)
  | JStr (s : string)
  | JList (l : list json)
  | JDict (d : gmap string json).

(** [bool(v)] *)
Definition truthy (v : json) : bool :=
  match v with
  | JNull => false
  | JBool b => b
  | JInt z => negb (z =? 0)%Z
  | JFloat (S754_zero _) => false
  | JFloat _ => true
  | JStr s => negb (String.eqb s "")
  | JList l => match l with [] => false | _ :: _ => true end
  | JDict d => negb (bool_decide (d = ∅))
  end.

(** [bool(s)] for a [str] *)
Definition str_truthy (s : string) : bool := negb (String.eqb s "").

(** [bool(o)] for a value that is [None] or a [str] *)
Definition opt_truthy (o : option string) : bool :=
  match o with
  | None => false
  | Some s => str_truthy s
  end.

(** [sub in s] for two strings: some suffix of [s] starts with [sub]. *)
Fixpoint str_contains (sub s : string) : bool :=
  String.prefix sub s ||
  match s with
  | EmptyString => false
  | String _ s' => str_contains sub s'
  end.

(** [key in v] with [key] a [str] *)
Definition contains (key : string) (v : json) : result bool :=
  match v with
  | JDict d => Ok (bool_decide (is_Some (d !! key)))
  | JList l =>
      Ok (existsb (fun x => match x with
                            | JStr s => String.eqb key s
                            | _ => false
                            end) l)
  | JStr s => Ok (str_contains key s)
  | _ => Raise TypeError
  end.

(** [v[key]] with [key] a [str] *)
Definition getitem (v : json) (key : string) : result json :=
  match v with
  | JDict d =>
      match d !! key with
      | Some x => Ok x
      | None => Raise KeyError
      end
  | _ => Raise TypeError
  end.

(** [v[0]] *)
Definition getitem0 (v : json) : result json :=
  match v with
  | JList (x :: _) => Ok x
  | JList [] => Raise IndexError
  | JStr (String c _) => Ok (JStr (String c EmptyString))
  | JStr EmptyString => Raise IndexError
  | JDict _ => Raise KeyError
  | _ => Raise TypeError
  end.

(** [s.replace(old, new)] for one-character [old] and [new] *)
Fixpoint replace (old new : ascii) (s : string) : string :=
  match s with
  | EmptyString => EmptyString
  | String c s' =>
      String (if Ascii.eqb c old then new else c) (replace old new s')
  end.

(** [v.replace("+", " ")]: only [str] has the method. *)
Definition replace_plus (v : json) : result string :=
  match v with
  | JStr s => Ok (replace "+" " " s)
  | _ => Raise AttributeError
  end.

(** [sep.join(l)] *)
Fixpoint join (sep : string) (l : list string) : string :=
  match l with
  | [] => ""
  | [x] => x
  | x :: rest => x +:+ sep +:+ join sep rest
  end.

(** [s.split(sep)] for a one-character separator *)
Fixpoint split (sep : ascii) (s : string) : list string :=
  match s with
  | EmptyString => [""]
  | String c s' =>
      if Ascii.eqb c sep then "" :: split sep s'
      else match split sep s' with
           | [] => [String c ""]
           | w :: ws => String c w :: ws
           end
  end.

(** [os.environ] *)
Abbreviation environ := (gmap string string).

(** [os.environ[key]] *)
Definition environ_getitem (env : environ) (key : string) : result string :=
  match env !! key with
  | Some v => Ok v
  | None => Raise KeyError
  end.

(** [Response.raise_for_status()]: [HTTPError], a [RequestException], for
    the 4xx and 5xx codes. *)
Definition raise_for_status (status_code : Z) : result unit :=
  if ((400 <=? status_code) && (status_code <? 600))%Z
  then Raise RequestException
  else Ok tt.

End Py.
Import Py.

(** ** AnalyseImageFunction.py: the batch consumer *)

Module AnalyseImageFunction.

(** One SQS record of [event["Records"]]. *)
Record message : Type := {
  messageId : string;
  body : string
}.

(** The handler's [event]. *)
Record sqs_event : Type := {
  Records : list message
}.

(** One element of [response['CustomLabels']]. *)
Record CustomLabel : Type := {
  Name : string
}.

(** [nuxeo_payload]; its ["context"] is always the empty dict. *)
Record nuxeo_payload : Type := {
  xpath : string;
  save : string;
  value : string;
  input : json
}.

(** An element of [processed_messages]. *)
Record entry : Type := {
  docUid : json;
  labels : list string;
  nuxeo_status : Z
}.

(** The three outbound calls, each with the answer it received. *)
Inductive event : Type :=
  | EvDetect (ProjectVersionArn : string) (Bucket : json) (ImageName : string)
             (r : result (list CustomLabel))
  | EvPost (url : option string) (payload : nuxeo_payload)
           (hdrs : list (string * string))
           (auth : option string * option string) (timeout : Z)
           (r : result Z)
  | EvSend (QueueUrl : string) (MessageBody : string) (r : result unit).

Definition trace : Type := list event.

(** The collaborators of the handler. [requests_post] answers with the
    status code of the response object. *)
Record World : Type := {
  json_loads : string -> result json;
  detect_custom_labels :
    trace -> string -> json -> string -> result (list CustomLabel);
  requests_post :
    trace -> option string -> nuxeo_payload -> list (string * string) ->
    option string * option string -> Z -> result Z;
  send_message : trace -> string -> string -> result unit
}.

(** Computations that may raise and that extend the trace. *)
Definition M (A : Type) : Type := trace -> result A * trace.

Definition ret {A} (a : A) : M A := fun t => (Ok a, t).
Definition bind {A B} (m : M A) (k : A -> M B) : M B :=
  fun t =>
    match m t with
    | (Ok a, t') => k a t'
    | (Raise e, t') => (Raise e, t')
    end.
Definition lift {A} (r : result A) : M A := fun t => (r, t).

Notation "'let*' x ':=' m 'in' k" := (bind m (fun x => k))
  (at level 10, x name, m at level 100, k at level 200).

(** Why a message ended in [failed_messages]: the two explicit [continue]
    branches and the four [except] clauses. *)
Inductive reason : Type :=
  | InvalidMessage
  | MissingFields
  | RekognitionError
  | InvalidJSON
  | NuxeoAPIError
  | UnexpectedError.

Inductive outcome : Type :=
  | Success (e : entry)
  | Failure (why : reason).

Definition headers : list (string * string) :=
  [("Nuxeo-Transaction-Timeout", "3");
   ("X-NXproperties", "*");
   ("X-NXRepository", "default");
   ("X-NXVoidOperation", "false");
   ("content-type", "application/json")].

(** [",".join(label_names) if label_names else "none"] *)
Definition labels_value (label_names : list string) : string :=
  match label_names with
  | [] => "none"
  | _ :: _ => join "," label_names
  end.

(** What the handler returns. *)
Inductive response : Type :=
  | ErrorResponse (status error : string)
  | Report (status : string) (processed failed : nat) (results : list entry).

Section Handler.

Context (w : World).

Definition call_detect (model_arn : string) (bucket : json) (image : string)
  : M (list CustomLabel) :=
  fun t =>
    let r := detect_custom_labels w t model_arn bucket image in
    (r, t ++ [EvDetect model_arn bucket image r]).

Definition call_post (nuxeo_url : option string) (payload : nuxeo_payload)
    (auth : option string * option string) : M Z :=
  fun t =>
    let r := requests_post w t nuxeo_url payload headers auth 5 in
    (r, t ++ [EvPost nuxeo_url payload headers auth 5 r]).

Definition call_send (dlq_url body : string) : M unit :=
  fun t =>
    let r := send_message w t dlq_url body in
    (r, t ++ [EvSend dlq_url body r]).

(** Lines 37-51 of the [try] block: from the decoded payload to the three
    fields of the job. The two branches that end in
    [failed_messages.append(msg); continue] give the [reason] on the left;
    every exception is left to the [except] clauses. *)
Definition extract_job (msg_payload : json)
  : result (reason + json * string * json) :=
  match contains "Records" msg_payload with
  | Raise e => Raise e
  | Ok has_records =>
  if negb has_records then Ok (inl InvalidMessage)
  else
    match getitem msg_payload "Records" with Raise e => Raise e | Ok records =>
    match getitem0 records with Raise e => Raise e | Ok record =>
    match getitem record "s3" with Raise e => Raise e | Ok s3 =>
    match getitem s3 "bucket" with Raise e => Raise e | Ok bucket_obj =>
    match getitem bucket_obj "name" with Raise e => Raise e | Ok bucket =>
    match getitem record "s3" with Raise e => Raise e | Ok s3' =>
    match getitem s3' "object" with Raise e => Raise e | Ok object =>
    match getitem object "key" with Raise e => Raise e | Ok key =>
    match replace_plus key with Raise e => Raise e | Ok image =>
    match getitem record "s3" with Raise e => Raise e | Ok s3'' =>
    match getitem s3'' "documentUUID" with Raise e => Raise e | Ok document =>
    match getitem document "uid" with Raise e => Raise e | Ok doc_uid =>
      if negb (truthy bucket && str_truthy image && truthy doc_uid)
      then Ok (inl MissingFields)
      else Ok (inr (bucket, image, doc_uid))
    end end end end end end end end end end end end
  end.

(** Lines 55-108: the detection call, the value for the document store,
    the POST and the new element of [processed_messages]. *)
Definition detect_and_publish
    (nuxeo_url nuxeo_user nuxeo_password : option string)
    (model_arn : string) (bucket : json) (image : string) (doc_uid : json)
  : M entry :=
  let* custom_labels := call_detect model_arn bucket image in
  let label_names := map Name custom_labels in
  let labels_value := labels_value label_names in
  let payload :=
    {| xpath := "assetRecognition:landMark";
       save := "true";
       value := labels_value;
       input := doc_uid |} in
  let* status_code :=
    call_post nuxeo_url payload (nuxeo_user, nuxeo_password) in
  let* _ := lift (raise_for_status status_code) in
  ret {| docUid := doc_uid;
         labels := label_names;
         nuxeo_status := status_code |}.

(** The body of the [try] block for one message. *)
Definition try_block (nuxeo_url nuxeo_user nuxeo_password : option string)
    (model_arn : string) (msg : message) : M outcome :=
  let* msg_payload := lift (json_loads w (body msg)) in
  let* job := lift (extract_job msg_payload) in
  match job with
  | inl why => ret (Failure why)
  | inr (bucket, image, doc_uid) =>
      let* e :=
        detect_and_publish nuxeo_url nuxeo_user nuxeo_password model_arn
          bucket image doc_uid in
      ret (Success e)
  end.

(** The [except] clauses, in their order. All of them append the message to
    [failed_messages] and continue. *)
Definition except_clauses (e : exn) : reason :=
  match e with
  | ClientError => RekognitionError
  | JSONDecodeError => InvalidJSON
  | RequestException => NuxeoAPIError
  | _ => UnexpectedError
  end.

(** One iteration of the first loop. *)
Definition process_message (nuxeo_url nuxeo_user nuxeo_password : option string)
    (model_arn : string) (msg : message) (t : trace) : outcome * trace :=
  match try_block nuxeo_url nuxeo_user nuxeo_password model_arn msg t with
  | (Ok o, t') => (o, t')
  | (Raise e, t') => (Failure (except_clauses e), t')
  end.

(** [for msg in event["Records"]: ...] with the two accumulators. *)
Fixpoint process_batch (nuxeo_url nuxeo_user nuxeo_password : option string)
    (model_arn : string) (msgs : list message)
    (processed_messages : list entry) (failed_messages : list message)
    (t : trace) : list entry * list message * trace :=
  match msgs with
  | [] => (processed_messages, failed_messages, t)
  | msg :: rest =>
      match process_message nuxeo_url nuxeo_user nuxeo_password model_arn msg t with
      | (Success e, t') =>
          process_batch nuxeo_url nuxeo_user nuxeo_password model_arn rest
            (processed_messages ++ [e]) failed_messages t'
      | (Failure _, t') =>
          process_batch nuxeo_url nuxeo_user nuxeo_password model_arn rest
            processed_messages (failed_messages ++ [msg]) t'
      end
  end.

(** [for failed_msg in failed_messages: ...]: only [ClientError] is caught,
    any other exception of [send_message] leaves the handler. *)
Fixpoint send_to_dlq (dlq_url : string) (failed_messages : list message)
  : M unit :=
  match failed_messages with
  | [] => ret tt
  | failed_msg :: rest =>
      fun t =>
        match call_send dlq_url (body failed_msg) t with
        | (Ok _, t') => send_to_dlq dlq_url rest t'
        | (Raise ClientError, t') => send_to_dlq dlq_url rest t'
        | (Raise e, t') => (Raise e, t')
        end
  end.

Definition lambda_handler (env : environ) (event : sqs_event) : M response :=
  let nuxeo_url := env !! "Nuxeo_Endpoint" in
  let nuxeo_user := env !! "Nuxeo_User" in
  let nuxeo_password := env !! "Nuxeo_Password" in
  let dlq_url := env !! "DLQ_URL" in
  match dlq_url with
  | None => ret (ErrorResponse "500" "DLQ_URL not configured")
  | Some dlq =>
      if negb (str_truthy dlq)
      then ret (ErrorResponse "500" "DLQ_URL not configured")
      else
        let* model_arn :=
          lift (environ_getitem env "rekognition_model_project_version_arn") in
        fun t =>
          match process_batch nuxeo_url nuxeo_user nuxeo_password model_arn
                  (Records event) [] [] t with
          | (processed_messages, failed_messages, t') =>
              (let* _ := send_to_dlq dlq failed_messages in
               ret (Report "200" (length processed_messages)
                      (length failed_messages) processed_messages)) t'
          end
  end.

End Handler.

End AnalyseImageFunction.

(** ** sqs_poller.py: the backlog gate *)

Module sqs_poller.

(** [int(c)] for a one-character string: a decimal digit or [ValueError]. *)
Definition int_of_char (c : ascii) : result Z :=
  let n := Z.of_nat (nat_of_ascii c) in
  if ((48 <=? n) && (n <=? 57))%Z then Ok (n - 48)%Z else Raise ValueError.

(** [s[0]] for a [str] *)
Definition first_char (s : string) : result ascii :=
  match s with
  | EmptyString => Raise IndexError
  | String c _ => Ok c
  end.

Section Handler.

(** [sqs.get_queue_attributes(QueueUrl, AttributeNames)], answering with the
    [Attributes] dict of the response. *)
Context (get_queue_attributes :
           string -> list string -> result (gmap string string)).

Definition lambda_handler (env : environ) : result string :=
  match environ_getitem env "SQS_Queue_URL" with
  | Raise e => Raise e
  | Ok src_queue_url =>
  match get_queue_attributes src_queue_url ["ApproximateNumberOfMessages"] with
  | Raise e => Raise e
  | Ok attributes =>
  match attributes !! "ApproximateNumberOfMessages" with
  | None => Raise KeyError
  | Some approximate =>
  match first_char approximate with
  | Raise e => Raise e
  | Ok count =>
  match int_of_char count with
  | Raise e => Raise e
  | Ok n => if (n >? 0)%Z then Ok "incoming" else Ok "stop"
  end end end end end.

End Handler.

End sqs_poller.

(** ** StartModelFunction.py: start the model unless it runs or starts *)

Module StartModelFunction.

(** The answer of [start_project_version]. *)
Record start_response : Type := {
  Status : string
}.

Inductive event : Type :=
  | EvDescribe (ProjectArn : string) (VersionNames : list string)
               (r : result (list string))
  | EvStart (ProjectVersionArn : string) (MinInferenceUnits : Z)
            (r : result start_response).

Definition trace : Type := list event.

(** The Rekognition client. [describe_project_versions] answers with the
    [Status] of each element of [ProjectVersionDescriptions]. *)
Record World : Type := {
  describe_project_versions :
    trace -> string -> list string -> result (list string);
  rekog_start_project_version :
    trace -> string -> Z -> result start_response
}.

(** What the handler returns: a status string on one path, the response of
    the start call on the other. *)
Inductive retval : Type :=
  | RetStatus (status : string)
  | RetResponse (response : start_response).

Record env_vars : Type := {
  project_version_arn : string;
  project_arn : string
}.

Definition get_environment_variables (env : environ) : result env_vars :=
  match environ_getitem env "rekog_model_project_version_arn" with
  | Raise e => Raise e
  | Ok version_arn =>
      match environ_getitem env "rekog_model_project_arn" with
      | Raise e => Raise e
      | Ok arn =>
          Ok {| project_version_arn := version_arn; project_arn := arn |}
      end
  end.

(** [project_version_arn.split("/")[3]] *)
Definition get_project_version_name (project_version_arn : string)
  : result string :=
  match split "/" project_version_arn !! 3 with
  | Some name => Ok name
  | None => Raise IndexError
  end.

Section Handler.

Context (w : World).

(** The [except] clause re-raises, so every exception passes through. *)
Definition describe_project_version (project_arn version_name : string)
    (t : trace) : result string * trace :=
  let r := describe_project_versions w t project_arn [version_name] in
  let t' := t ++ [EvDescribe project_arn [version_name] r] in
  match r with
  | Raise e => (Raise e, t')
  | Ok descriptions =>
      match descriptions with
      | [] => (Raise IndexError, t')
      | status :: _ => (Ok status, t')
      end
  end.

(** The [except] clause re-raises here as well. *)
Definition start_project_version (project_version_arn : string) (t : trace)
  : result start_response * trace :=
  let r := rekog_start_project_version w t project_version_arn 1 in
  (r, t ++ [EvStart project_version_arn 1 r]).

Definition lambda_handler (env : environ) (t : trace)
  : result retval * trace :=
  match get_environment_variables env with
  | Raise e => (Raise e, t)
  | Ok vars =>
  match get_project_version_name (project_version_arn vars) with
  | Raise e => (Raise e, t)
  | Ok project_version_name =>
  match describe_project_version (project_arn vars) project_version_name t with
  | (Raise e, t1) => (Raise e, t1)
  | (Ok running_status, t1) =>
      if bool_decide (running_status ∈ ["RUNNING"; "STARTING"])
      then (Ok (RetStatus running_status), t1)
      else
        match start_project_version (project_version_arn vars) t1 with
        | (Raise e, t2) => (Raise e, t2)
        | (Ok response, t2) => (Ok (RetResponse response), t2)
        end
  end end end.

End Handler.

End StartModelFunction.

(** ** StopModelFunction.py: stop the model, then notify *)

Module StopModelFunction.

Record nuxeo_payload : Type := {
  from : string;
  to : json;
  HTML : bool;
  input : option json
}.

Inductive event : Type :=
  | EvDescribe (ProjectArn : string) (VersionNames : list string)
               (r : result (list string))
  | EvStop (ProjectVersionArn : string) (r : result unit)
  | EvPost (url : string) (hdrs : list (string * string))
           (payload : nuxeo_payload) (auth : string * string) (timeout : Z)
           (r : result Z).

Definition trace : Type := list event.

Record World : Type := {
  describe_project_versions :
    trace -> string -> list string -> result (list string);
  stop_project_version : trace -> string -> result unit;
  requests_post :
    trace -> string -> list (string * string) -> nuxeo_payload ->
    string * string -> Z -> result Z
}.

(** The dict the handler returns; [body] holds the text under the ["error"]
    key of the serialised body. *)
Record http_result : Type := {
  statusCode : Z;
  body : option string
}.

Record env_vars : Type := {
  project_version_arn : string;
  project_arn : string;
  nuxeo_endpoint : string;
  nuxeo_username : string;
  nuxeo_password : string
}.

(** [get_environment_variable(key)] with [required=True]. *)
Definition get_environment_variable (env : environ) (key : string)
  : result string :=
  match env !! key with
  | Some value =>
      if str_truthy value then Ok value
      else Raise (EnvironmentError (key +:+ " environment variable not set"))
  | None => Raise (EnvironmentError (key +:+ " environment variable not set"))
  end.

Definition get_environment_variables (env : environ) : result env_vars :=
  match get_environment_variable env "rekog_model_project_version_arn" with
  | Raise e => Raise e | Ok version_arn =>
  match get_environment_variable env "rekog_model_project_arn" with
  | Raise e => Raise e | Ok arn =>
  match get_environment_variable env "Nuxeo_Endpoint" with
  | Raise e => Raise e | Ok endpoint =>
  match get_environment_variable env "Nuxeo_UserName" with
  | Raise e => Raise e | Ok username =>
  match get_environment_variable env "Nuxeo_Password" with
  | Raise e => Raise e | Ok password =>
      Ok {| project_version_arn := version_arn;
            project_arn := arn;
            nuxeo_endpoint := endpoint;
            nuxeo_username := username;
            nuxeo_password := password |}
  end end end end end.

Definition headers : list (string * string) :=
  [("Nuxeo-Transaction-Timeout", "3");
   ("X-NXproperties", "*");
   ("X-NXRepository", "default");
   ("X-NXVoidOperation", "false");
   ("content-type", "application/json")].

Section Handler.

Context (w : World).

(** Any exception of the describe call gives [None]. *)
Definition check_model_running_status (project_arn project_version_name : string)
    (t : trace) : option string * trace :=
  let r := describe_project_versions w t project_arn [project_version_name] in
  let t' := t ++ [EvDescribe project_arn [project_version_name] r] in
  match r with
  | Ok (status :: _) => (Some status, t')
  | Ok [] => (None, t')
  | Raise _ => (None, t')
  end.

(** An exception of the stop call is logged and dropped. *)
Definition stop_model_if_running (project_version_arn running_status : string)
    (running_states : list string) (t : trace) : trace :=
  if bool_decide (running_status ∈ running_states)
  then t ++ [EvStop project_version_arn
               (stop_project_version w t project_version_arn)]
  else t.

Definition send_nuxeo_request (ev : gmap string json) (vars : env_vars)
    (t : trace) : result http_result * trace :=
  match ev !! "userEmail" with
  | None =>
      (Ok {| statusCode := 400;
             body := Some "User email is required to send Nuxeo request." |},
       t)
  | Some user_email =>
      if negb (truthy user_email)
      then
        (Ok {| statusCode := 400;
               body := Some "User email is required to send Nuxeo request." |},
         t)
      else
        let payload :=
          {| from := "no-reply@maildrop.cc"; to := user_email; HTML := true;
             input := ev !! "collectionId" |} in
        let auth := (nuxeo_username vars, nuxeo_password vars) in
        let r :=
          requests_post w t (nuxeo_endpoint vars) headers payload auth 5 in
        let t' :=
          t ++ [EvPost (nuxeo_endpoint vars) headers payload auth 5 r] in
        match r with
        | Raise RequestException =>
            (Ok {| statusCode := 500;
                   body := Some "Failed to send Nuxeo request" |}, t')
        | Raise e => (Raise e, t')
        | Ok status_code =>
            match raise_for_status status_code with
            | Raise _ =>
                (Ok {| statusCode := 500;
                       body := Some "Failed to send Nuxeo request" |}, t')
            | Ok _ =>
                if ((200 <=? status_code) && (status_code <? 300))%Z
                then (Ok {| statusCode := status_code; body := None |}, t')
                else
                  (Ok {| statusCode := 500;
                         body := Some "Unexpected response status code from Nuxeo API" |},
                   t')
            end
        end
  end.

(** The two [except] clauses of the handler. *)
Definition handler_except (e : exn) : http_result :=
  match e with
  | EnvironmentError msg => {| statusCode := 500; body := Some msg |}
  | _ => {| statusCode := 500; body := Some "An unexpected error occurred." |}
  end.

(** The [try] block of the handler. *)
Definition handler_try (ev : gmap string json) (env : environ) (t : trace)
  : result http_result * trace :=
  match get_environment_variables env with
  | Raise e => (Raise e, t)
  | Ok vars =>
      let running_states := ["STARTING"; "RUNNING"] in
      match split "/" (project_version_arn vars) !! 3 with
      | None => (Raise IndexError, t)
      | Some project_version_name =>
          match check_model_running_status (project_arn vars)
                  project_version_name t with
          | (None, t1) => send_nuxeo_request ev vars t1
          | (Some running_status, t1) =>
              if str_truthy running_status
              then send_nuxeo_request ev vars
                     (stop_model_if_running (project_version_arn vars)
                        running_status running_states t1)
              else send_nuxeo_request ev vars t1
          end
      end
  end.

Definition lambda_handler (ev : gmap string json) (env : environ) (t : trace)
  : http_result * trace :=
  match handler_try ev env t with
  | (Ok r, t') => (r, t')
  | (Raise e, t') => (handler_except e, t')
  end.

End Handler.

End StopModelFunction.

(** ** fetchObjectsAndCreateSQSMessages.py: seed the queue from a collection *)

Module fetchObjectsAndCreateSQSMessages.

(** [v.get(key, default)]: only a [dict] has the method. A key that is
    present with the value [None] gives [None], not the default. *)
Definition get (v : json) (key : string) (default : json) : result json :=
  match v with
  | JDict d =>
      match d !! key with
      | Some x => Ok x
      | None => Ok default
      end
  | _ => Raise AttributeError
  end.

(** [v == s] for a [str] [s] *)
Definition eq_str (v : json) (s : string) : bool :=
  match v with
  | JStr x => String.eqb x s
  | _ => false
  end.

(** The one-character strings of a [str], in order. *)
Fixpoint chars (s : string) : list json :=
  match s with
  | EmptyString => []
  | String c s' => JStr (String c EmptyString) :: chars s'
  end.

(** The elements [for x in v] visits. The keys of a [dict] are listed in the
    order of the map, which is not the insertion order of Python; every key
    is a [str] and both loops of the file begin with [x.get(...)], so the
    order cannot be observed. *)
Definition iterate (v : json) : result (list json) :=
  match v with
  | JList l => Ok l
  | JStr s => Ok (chars s)
  | JDict d => Ok (JStr <$> (map_to_list d).*1)
  | _ => Raise TypeError
  end.

(** The response object of [requests.post]: its status code and what
    [response.json()] gives. *)
Record http_response : Type := {
  status_code : Z;
  json_body : result json
}.

(** [payload]; ["params"] and ["context"] are always empty dicts. *)
Record nuxeo_payload : Type := {
  input : json
}.

Inductive event : Type :=
  | EvPost (url : string) (hdrs : list (string * string))
           (payload : nuxeo_payload) (auth : string * string) (timeout : Z)
           (r : result http_response)
  | EvSend (QueueUrl : string) (MessageBody : string) (r : result unit).

Definition trace : Type := list event.

(** [json_dumps] is [json.dumps]; [repr] is [str(v)] for a value [v] that is
    not a [str]. *)
Record World : Type := {
  requests_post :
    trace -> string -> list (string * string) -> nuxeo_payload ->
    string * string -> Z -> result http_response;
  send_message : trace -> string -> string -> result unit;
  json_dumps : json -> string;
  repr : json -> string
}.

(** The body of the returned dict: the text under ["message"], the text
    under ["error"], or [str(e)] under ["error"] for an exception whose text
    is not part of [exn]. *)
Inductive body_text : Type :=
  | Message (text : string)
  | Error (text : string)
  | ErrorOf (e : exn).

Record http_result : Type := {
  statusCode : Z;
  body : body_text
}.

Definition get_environment_variable (env : environ) (key : string)
  : result string :=
  match env !! key with
  | Some value =>
      if str_truthy value then Ok value
      else Raise (EnvironmentError (key +:+ " environment variable not set"))
  | None => Raise (EnvironmentError (key +:+ " environment variable not set"))
  end.

Definition headers : list (string * string) :=
  [("Nuxeo-Transaction-Timeout", "3");
   ("X-NXproperties", "*");
   ("X-NXRepository", "default");
   ("X-NXVoidOperation", "false");
   ("content-type", "application/json")].

(** [sqs_payload] of lines 55-72. *)
Definition sqs_payload (binary_key : string) (document_uuid : json) : json :=
  JDict {[ "Records" :=
    JList [JDict {[ "s3" :=
      JDict (<[ "bucket" := JDict (<[ "name" := JStr "******" ]>
                                   {[ "arn" := JStr "******" ]}) ]>
             (<[ "object" := JDict {[ "key" := JStr binary_key ]} ]>
              {[ "documentUUID" := JDict {[ "uid" := document_uuid ]} ]})) ]}] ]}.

(** The inner loop of lines 42-45: the digest of the first view titled
    ["FullHD"], if the loop reaches one. *)
Fixpoint find_full_hd (views : list json) : result (option json) :=
  match views with
  | [] => Ok None
  | view :: rest =>
      match get view "title" JNull with
      | Raise e => Raise e
      | Ok title =>
          if eq_str title "FullHD"
          then
            match get view "content" (JDict ∅) with
            | Raise e => Raise e
            | Ok content =>
                match get content "digest" (JStr "unknown") with
                | Raise e => Raise e
                | Ok digest => Ok (Some digest)
                end
            end
          else find_full_hd rest
      end
  end.

(** Lines 41-47. [digest] is the local variable of [process_documents]:
    [None] while it is unbound, and it keeps its value from one document to
    the next when no branch assigns it. *)
Definition select_digest (document : json) (digest : option json)
  : result (option json) :=
  match get document "properties" (JDict ∅) with Raise e => Raise e
  | Ok properties =>
  match get properties "picture:views" (JList []) with Raise e => Raise e
  | Ok views =>
    if truthy views
    then
      match iterate views with Raise e => Raise e | Ok items =>
      match find_full_hd items with Raise e => Raise e
      | Ok (Some found) => Ok (Some found)
      | Ok None => Ok digest
      end end
    else
      match get properties "file:content" (JDict ∅) with Raise e => Raise e
      | Ok content =>
      match get content "digest" (JStr "unknown") with Raise e => Raise e
      | Ok found => Ok (Some found)
      end end
  end end.

Section Handler.

Context (w : World).

(** [requests.post], [raise_for_status], [response.json()]; the [except]
    clause re-raises. *)
Definition make_nuxeo_request (url : string) (hdrs : list (string * string))
    (payload : nuxeo_payload) (auth : string * string) (t : trace)
  : result json * trace :=
  let r := requests_post w t url hdrs payload auth 5 in
  let t' := t ++ [EvPost url hdrs payload auth 5 r] in
  match r with
  | Raise e => (Raise e, t')
  | Ok response =>
      match raise_for_status (status_code response) with
      | Raise e => (Raise e, t')
      | Ok _ => (json_body response, t')
      end
  end.

(** [f"{digest}"] *)
Definition format (digest : json) : string :=
  match digest with
  | JStr s => s
  | _ => repr w digest
  end.

(** One iteration of the loop of [process_documents], from the value of
    [digest] before to its value after. Reading [digest] while it is unbound
    raises [UnboundLocalError]; an exception of [send_message] is logged and
    dropped. *)
Definition process_document (queue_url : string) (document : json)
    (digest : option json) (t : trace) : result (option json) * trace :=
  match select_digest document digest with
  | Raise e => (Raise e, t)
  | Ok digest' =>
  match get document "uid" JNull with
  | Raise e => (Raise e, t)
  | Ok document_uuid =>
  match digest' with
  | None => (Raise OtherException, t)
  | Some found =>
      if eq_str found "unknown" then (Ok digest', t)
      else
        let binary_key := "nike-binary/" +:+ format found in
        let message_body := json_dumps w (sqs_payload binary_key document_uuid) in
        let r := send_message w t queue_url message_body in
        (Ok digest', t ++ [EvSend queue_url message_body r])
  end end end.

Fixpoint process_documents_from (queue_url : string) (documents : list json)
    (digest : option json) (t : trace) : result unit * trace :=
  match documents with
  | [] => (Ok tt, t)
  | document :: rest =>
      match process_document queue_url document digest t with
      | (Raise e, t') => (Raise e, t')
      | (Ok digest', t') => process_documents_from queue_url rest digest' t'
      end
  end.

Definition process_documents (documents : json) (queue_url : string)
    (t : trace) : result unit * trace :=
  match iterate documents with
  | Raise e => (Raise e, t)
  | Ok items => process_documents_from queue_url items None t
  end.

(** The [try] block of the handler. *)
Definition handler_try (ev : gmap string json) (env : environ) (t : trace)
  : result http_result * trace :=
  match get_environment_variable env "Nuxeo_Endpoint" with
  | Raise e => (Raise e, t) | Ok url =>
  match get_environment_variable env "Nuxeo_UserName" with
  | Raise e => (Raise e, t) | Ok username =>
  match get_environment_variable env "Nuxeo_Password" with
  | Raise e => (Raise e, t) | Ok password =>
  match get_environment_variable env "SQS_QUEUE_URL" with
  | Raise e => (Raise e, t) | Ok queue_url =>
  match ev !! "collectionId" with
  | None => (Raise KeyError, t) | Some collection_id =>
  match make_nuxeo_request url headers {| input := collection_id |}
          (username, password) t with
  | (Raise e, t1) => (Raise e, t1) | (Ok response_data, t1) =>
  match get response_data "entries" (JList []) with
  | Raise e => (Raise e, t1) | Ok documents =>
      if negb (truthy documents)
      then (Ok {| statusCode := 200;
                  body := Message "No documents found in the collection." |},
            t1)
      else
        match process_documents documents queue_url t1 with
        | (Raise e, t2) => (Raise e, t2)
        | (Ok _, t2) =>
            (Ok {| statusCode := 200;
                   body := Message "Messages sent to SQS successfully." |},
             t2)
        end
  end end end end end end end.

(** The two [except] clauses. [EnvironmentError] is [OSError], and
    [requests.RequestException] derives from [IOError], which is [OSError]
    too: the first clause answers both with the text of the exception. *)
Definition handler_except (e : exn) : http_result :=
  match e with
  | EnvironmentError msg => {| statusCode := 500; body := Error msg |}
  | RequestException =>
      {| statusCode := 500; body := ErrorOf RequestException |}
  | _ => {| statusCode := 500; body := Error "An unexpected error occurred." |}
  end.

Definition lambda_handler (ev : gmap string json) (env : environ) (t : trace)
  : http_result * trace :=
  match handler_try ev env t with
  | (Ok r, t') => (r, t')
  | (Raise e, t') => (handler_except e, t')
  end.

End Handler.

End fetchObjectsAndCreateSQSMessages.

(** ** Vocabulary of the statements *)

(** These definitions are not in the source: they name what the properties
    below talk about. *)

Module Observations.

Import AnalyseImageFunction.

(** The [EvSend] events of a trace, in order: queue URL and body. *)
Definition dlq_sends (t : trace) : list (string * string) :=
  omap (fun ev => match ev with
                  | EvSend u b _ => Some (u, b)
                  | _ => None
                  end) t.

(** Every failure of [send_message] is a [ClientError]. *)
Definition dlq_raises_only_client_error (w : World) : Prop :=
  forall t url b e, send_message w t url b = Raise e -> e = ClientError.

(** [msg_payload["Records"][0]["s3"]["object"]["key"]]: the object key as
    the message carries it. *)
Definition raw_object_key (msg_payload : json) : result json :=
  match getitem msg_payload "Records" with Raise e => Raise e | Ok records =>
  match getitem0 records with Raise e => Raise e | Ok record =>
  match getitem record "s3" with Raise e => Raise e | Ok s3 =>
  match getitem s3 "object" with Raise e => Raise e | Ok object =>
  getitem object "key"
  end end end end.

(** The payload of the POST for a document and a value. *)
Definition publish_payload (doc_uid : json) (v : string) : nuxeo_payload :=
  {| xpath := "assetRecognition:landMark"; save := "true";
     value := v; input := doc_uid |}.

(** The handler returned the structured report. *)
Definition returns_report (r : result response) : bool :=
  match r with
  | Ok (Report _ _ _ _) => true
  | _ => false
  end.


(** The decimal text of a count, as SQS reports
    [ApproximateNumberOfMessages]. *)
Definition decimal (n : N) : string := NilZero.string_of_uint (N.to_uint n).

(** The start requests of a trace: ARN and [MinInferenceUnits]. *)
Definition start_requests (t : StartModelFunction.trace) : list (string * Z) :=
  omap (fun ev => match ev with
                  | StartModelFunction.EvStart arn units _ => Some (arn, units)
                  | _ => None
                  end) t.

(** The stop requests of a trace. *)
Definition stop_requests (t : StopModelFunction.trace) : list string :=
  omap (fun ev => match ev with
                  | StopModelFunction.EvStop arn _ => Some arn
                  | _ => None
                  end) t.

(** The state a describe call reports: the [Status] of the first
    description, or nothing when the call raised or described no version. *)
Definition described_state (d : result (list string)) : option string :=
  match d with
  | Ok (status :: _) => Some status
  | _ => None
  end.

(** The handler of [StartModelFunction] returned a string. *)
Definition is_string_token (r : result StartModelFunction.retval) : bool :=
  match r with
  | Ok (StartModelFunction.RetStatus _) => true
  | _ => false
  end.

End Observations.

(** ** Concrete worlds *)

Module Scenarios.

Import AnalyseImageFunction.

Definition s3_record (bucket key uid : string) : json :=
  JDict {[ "s3" := JDict (<[ "bucket" := JDict {[ "name" := JStr bucket ]} ]>
                          (<[ "object" := JDict {[ "key" := JStr key ]} ]>
                           {[ "documentUUID" := JDict {[ "uid" := JStr uid ]} ]})) ]}.

Definition payload_of (records : list json) : json :=
  JDict {[ "Records" := JList records ]}.

(** The bodies stand for the JSON texts of the payloads beside them; any
    other body is not JSON. *)
Definition demo_loads (b : string) : result json :=
  if String.eqb b "job foo+bar"
  then Ok (payload_of [s3_record "b1" "foo+bar.jpg" "doc-1"])
  else if String.eqb b "job foo+bar, then other"
  then Ok (payload_of [s3_record "b1" "foo+bar.jpg" "doc-1";
                       s3_record "b2" "other.jpg" "doc-2"])
  else if String.eqb b "job plain"
  then Ok (payload_of [s3_record "b1" "plain.jpg" "doc-3"])
  else Raise JSONDecodeError.

Definition demo_detect (t : trace) (arn : string) (bucket : json)
    (image : string) : result (list CustomLabel) :=
  if String.eqb image "foo bar.jpg"
  then Ok [{| Name := "cat" |}; {| Name := "dog" |}]
  else Ok [].

(** A POST without a URL raises [MissingSchema], a [RequestException]. *)
Definition demo_post (t : trace) (url : option string) (p : nuxeo_payload)
    (h : list (string * string)) (auth : option string * option string)
    (timeout : Z) : result Z :=
  match url with
  | Some _ => Ok 200%Z
  | None => Raise RequestException
  end.

Definition demo_world : World :=
  {| json_loads := demo_loads;
     detect_custom_labels := demo_detect;
     requests_post := demo_post;
     send_message := fun _ _ _ => Ok tt |}.

(** The same world with an unreachable queue endpoint: botocore raises a
    connection error, which is not a [ClientError]. *)
Definition dlq_unreachable_world : World :=
  {| json_loads := demo_loads;
     detect_custom_labels := demo_detect;
     requests_post := demo_post;
     send_message := fun _ _ _ => Raise OtherException |}.

Definition full_env : environ :=
  <[ "DLQ_URL" := "https://sqs/dlq" ]>
  (<[ "rekognition_model_project_version_arn" := "arn:model/v1" ]>
   (<[ "Nuxeo_Endpoint" := "https://nuxeo/api" ]>
    (<[ "Nuxeo_User" := "svc" ]>
     {[ "Nuxeo_Password" := "secret" ]}))).



Definition msg_foo : message :=
  {| messageId := "m1"; body := "job foo+bar" |}.
Definition msg_two : message :=
  {| messageId := "m2"; body := "job foo+bar, then other" |}.
Definition msg_plain : message :=
  {| messageId := "m3"; body := "job plain" |}.
Definition msg_bad : message :=
  {| messageId := "m4"; body := "not+json {" |}.

Definition demo_batch : sqs_event :=
  {| Records := [msg_foo; msg_bad; msg_two; msg_plain] |}.

(** A batch in which every message fails. *)
Definition bad_batch : sqs_event :=
  {| Records := [msg_bad; msg_bad] |}.


(** Worlds for the lifecycle handlers. *)
Definition start_world (status : string) : StartModelFunction.World :=
  {| StartModelFunction.describe_project_versions := fun _ _ _ => Ok [status];
     StartModelFunction.rekog_start_project_version :=
       fun _ _ _ => Ok {| StartModelFunction.Status := "STARTING" |} |}.

Definition start_env : environ :=
  <[ "rekog_model_project_version_arn" := "arn:aws:rekognition:r:1:project/p/version/v1/17" ]>
  {[ "rekog_model_project_arn" := "arn:aws:rekognition:r:1:project/p/1" ]}.

Definition stop_world (d : result (list string)) : StopModelFunction.World :=
  {| StopModelFunction.describe_project_versions := fun _ _ _ => d;
     StopModelFunction.stop_project_version := fun _ _ => Ok tt;
     StopModelFunction.requests_post := fun _ _ _ _ _ _ => Ok 200%Z |}.

Definition stop_env : environ :=
  <[ "rekog_model_project_version_arn" := "arn:aws:rekognition:r:1:project/p/version/v1/17" ]>
  (<[ "rekog_model_project_arn" := "arn:aws:rekognition:r:1:project/p/1" ]>
   (<[ "Nuxeo_Endpoint" := "https://nuxeo/api" ]>
    (<[ "Nuxeo_UserName" := "svc" ]>
     {[ "Nuxeo_Password" := "secret" ]}))).

Definition start_vars : StartModelFunction.env_vars :=
  {| StartModelFunction.project_version_arn :=
       "arn:aws:rekognition:r:1:project/p/version/v1/17";
     StartModelFunction.project_arn := "arn:aws:rekognition:r:1:project/p/1" |}.

Definition stop_vars : StopModelFunction.env_vars :=
  {| StopModelFunction.project_version_arn :=
       "arn:aws:rekognition:r:1:project/p/version/v1/17";
     StopModelFunction.project_arn := "arn:aws:rekognition:r:1:project/p/1";
     StopModelFunction.nuxeo_endpoint := "https://nuxeo/api";
     StopModelFunction.nuxeo_username := "svc";
     StopModelFunction.nuxeo_password := "secret" |}.

Definition stop_event : gmap string json :=
  <[ "userEmail" := JStr "ops@example.org" ]>
  {[ "collectionId" := JStr "col-1" ]}.

(** The queue reports [n] messages. *)
Definition queue_reports (n : N)
  : string -> list string -> result (gmap string string) :=
  fun _ _ => Ok {[ "ApproximateNumberOfMessages" := Observations.decimal n ]}.

Definition poller_env : environ :=
  {[ "SQS_Queue_URL" := "https://sqs/incoming" ]}.

End Scenarios.

(** ** Further vocabulary and worlds *)

Module MoreObservations.

(** The string holds a ['+']. *)
Fixpoint has_plus (s : string) : bool :=
  match s with
  | EmptyString => false
  | String c s' => Ascii.eqb c "+" || has_plus s'
  end.

(** The string holds a ['/']. *)
Fixpoint has_slash (s : string) : bool :=
  match s with
  | EmptyString => false
  | String c s' => Ascii.eqb c "/" || has_slash s'
  end.

(** The number of ['/'] in the string. *)
Fixpoint count_slash (s : string) : nat :=
  match s with
  | EmptyString => 0
  | String c s' => (if Ascii.eqb c "/" then 1 else 0) + count_slash s'
  end.

(** A status for which [raise_for_status] raises. *)
Definition error_status (code : Z) : bool :=
  ((400 <=? code) && (code <? 600))%Z.

(** The image names of the detection calls of a trace, in order. *)
Definition detect_names (t : AnalyseImageFunction.trace) : list string :=
  omap (fun ev => match ev with
                  | AnalyseImageFunction.EvDetect _ _ name _ => Some name
                  | _ => None
                  end) t.

(** The values of the POSTs of a trace, in order. *)
Definition post_values (t : AnalyseImageFunction.trace) : list string :=
  omap (fun ev => match ev with
                  | AnalyseImageFunction.EvPost _ p _ _ _ _ =>
                      Some (AnalyseImageFunction.value p)
                  | _ => None
                  end) t.

(** The settings [StopModelFunction.get_environment_variables] reads, in
    its order. *)
Definition stop_settings : list string :=
  ["rekog_model_project_version_arn"; "rekog_model_project_arn";
   "Nuxeo_Endpoint"; "Nuxeo_UserName"; "Nuxeo_Password"].

(** The settings the handler of [fetchObjectsAndCreateSQSMessages] reads,
    in its order. *)
Definition fetch_settings : list string :=
  ["Nuxeo_Endpoint"; "Nuxeo_UserName"; "Nuxeo_Password"; "SQS_QUEUE_URL"].

(** The messages a trace of [fetchObjectsAndCreateSQSMessages] enqueued:
    queue URL and body. *)
Definition queue_sends (t : fetchObjectsAndCreateSQSMessages.trace)
  : list (string * string) :=
  omap (fun ev => match ev with
                  | fetchObjectsAndCreateSQSMessages.EvSend u b _ => Some (u, b)
                  | _ => None
                  end) t.

(** The POSTs of a trace of [StopModelFunction]: endpoint, credentials and
    payload. *)
Definition notifications (t : StopModelFunction.trace)
  : list (string * (string * string) * StopModelFunction.nuxeo_payload) :=
  omap (fun ev => match ev with
                  | StopModelFunction.EvPost u _ p a _ _ => Some (u, a, p)
                  | _ => None
                  end) t.

(** The body of the message decodes to a payload that passes the parsing
    and validation of the batch consumer. *)
Definition is_job (w : AnalyseImageFunction.World)
    (m : AnalyseImageFunction.message) : bool :=
  match AnalyseImageFunction.json_loads w (AnalyseImageFunction.body m) with
  | Ok msg_payload =>
      match AnalyseImageFunction.extract_job msg_payload with
      | Ok (inr _) => true
      | _ => false
      end
  | Raise _ => false
  end.

(** A view that is a dict whose title is not ["FullHD"]. *)
Definition other_view (view : json) : bool :=
  match view with
  | JDict d =>
      match d !! "title" with
      | Some title => negb (fetchObjectsAndCreateSQSMessages.eq_str title "FullHD")
      | None => true
      end
  | _ => false
  end.

End MoreObservations.

Module MoreScenarios.

Import fetchObjectsAndCreateSQSMessages.

(** A document with a file digest and no views. *)
Definition doc_file (uid digest : string) : json :=
  JDict (<[ "uid" := JStr uid ]>
         {[ "properties" :=
              JDict {[ "file:content" := JDict {[ "digest" := JStr digest ]} ]} ]}).

Definition view (title digest : string) : json :=
  JDict (<[ "title" := JStr title ]>
         {[ "content" := JDict {[ "digest" := JStr digest ]} ]}).

(** A document with picture views. *)
Definition doc_views (uid : string) (views : list json) : json :=
  JDict (<[ "uid" := JStr uid ]>
         {[ "properties" := JDict {[ "picture:views" := JList views ]} ]}).

(** A stand-in for [json.dumps]: it tells the payloads of the scenarios
    apart by the key and the document they carry. *)
Definition demo_dumps (v : json) : string :=
  match AnalyseImageFunction.extract_job v with
  | Ok (inr (_, key, JStr uid)) => key +:+ " for " +:+ uid
  | _ => "other"
  end.

Definition fetch_world (entries : list json) : World :=
  {| requests_post := fun _ _ _ _ _ _ =>
       Ok {| status_code := 200;
             json_body := Ok (JDict {[ "entries" := JList entries ]}) |};
     send_message := fun _ _ _ => Ok tt;
     json_dumps := demo_dumps;
     repr := fun _ => "?" |}.

(** The same, with a queue that refuses every message. *)
Definition fetch_world_queue_down (entries : list json) : World :=
  {| requests_post := fun _ _ _ _ _ _ =>
       Ok {| status_code := 200;
             json_body := Ok (JDict {[ "entries" := JList entries ]}) |};
     send_message := fun _ _ _ => Raise ClientError;
     json_dumps := demo_dumps;
     repr := fun _ => "?" |}.

Definition fetch_env : environ :=
  <[ "Nuxeo_Endpoint" := "https://nuxeo/api" ]>
  (<[ "Nuxeo_UserName" := "svc" ]>
   (<[ "Nuxeo_Password" := "secret" ]>
    {[ "SQS_QUEUE_URL" := "https://sqs/incoming" ]})).

Definition fetch_env_without_queue : environ :=
  <[ "Nuxeo_Endpoint" := "https://nuxeo/api" ]>
  (<[ "Nuxeo_UserName" := "svc" ]>
   {[ "Nuxeo_Password" := "secret" ]}).

Definition fetch_event : gmap string json :=
  {[ "collectionId" := JStr "col-1" ]}.

(** Five documents: a file digest; views with two FullHD views; views
    without a FullHD view; a file whose digest is ["unknown"]; views without
    a FullHD view again. *)
Definition fetch_docs : list json :=
  [doc_file "u1" "abc";
   doc_views "u2" [view "Small" "s1"; view "FullHD" "hd2"; view "FullHD" "hd3"];
   doc_views "u3" [view "Small" "s3"];
   doc_file "u4" "unknown";
   doc_views "u5" [view "Thumb" "x"]].

Definition fetch_run : http_result * trace :=
  lambda_handler (fetch_world fetch_docs) fetch_event fetch_env [].

Definition demo_run
  : result AnalyseImageFunction.response * AnalyseImageFunction.trace :=
  AnalyseImageFunction.lambda_handler Scenarios.demo_world Scenarios.full_env
    Scenarios.demo_batch [].

(** The stop environment without the password. *)
Definition stop_env_without_password : environ :=
  <[ "rekog_model_project_version_arn" := "arn:aws:rekognition:r:1:project/p/version/v1/17" ]>
  (<[ "rekog_model_project_arn" := "arn:aws:rekognition:r:1:project/p/1" ]>
   (<[ "Nuxeo_Endpoint" := "https://nuxeo/api" ]>
    {[ "Nuxeo_UserName" := "svc" ]})).

(** An ARN with too few segments. *)
Definition stop_env_short_arn : environ :=
  <[ "rekog_model_project_version_arn" := "arn:model/v1" ]>
  (<[ "rekog_model_project_arn" := "arn:aws:rekognition:r:1:project/p/1" ]>
   (<[ "Nuxeo_Endpoint" := "https://nuxeo/api" ]>
    (<[ "Nuxeo_UserName" := "svc" ]>
     {[ "Nuxeo_Password" := "secret" ]}))).

Definition start_env_short_arn : environ :=
  <[ "rekog_model_project_version_arn" := "arn:model/v1" ]>
  {[ "rekog_model_project_arn" := "arn:aws:rekognition:r:1:project/p/1" ]}.

(** A describe call that fails. *)
Definition start_world_describe_down : StartModelFunction.World :=
  {| StartModelFunction.describe_project_versions :=
       fun _ _ _ => Raise ClientError;
     StartModelFunction.rekog_start_project_version :=
       fun _ _ _ => Ok {| StartModelFunction.Status := "STARTING" |} |}.

End MoreScenarios.

(** ** Properties of the batch consumer *)

Module AnalyseImageFacts.
Import AnalyseImageFunction Observations.

(** [join] is the concatenation with separator of the standard library. *)
Lemma join_is_concat sep l : join sep l = String.concat sep l.
Proof.
  induction l as [|x l IH]; [reflexivity|].
  destruct l as [|y l]; [reflexivity|].
  change (join sep (x :: y :: l)) with (x +:+ sep +:+ join sep (y :: l)).
  change (String.concat sep (x :: y :: l))
    with (x +:+ sep +:+ String.concat sep (y :: l)).
  by rewrite IH.
Qed.

(** [replace] character by character: a ['+'] becomes a space, any other
    character stays, and nothing is added or removed. *)
Lemma replace_plus_chars s :
  list_ascii_of_string (replace "+" " " s)
  = List.map (fun c : ascii => if Ascii.eqb c "+" then " "%char else c)
      (list_ascii_of_string s).
Proof.
  induction s as [|c s IH]; [reflexivity|].
  cbn [replace list_ascii_of_string List.map]. by rewrite IH.
Qed.

Section Facts.

Context (w : World).
Context (nuxeo_url nuxeo_user nuxeo_password : option string).
Context (model_arn : string).

Local Abbreviation process_message :=
  (process_message w nuxeo_url nuxeo_user nuxeo_password model_arn).
Local Abbreviation process_batch :=
  (process_batch w nuxeo_url nuxeo_user nuxeo_password model_arn).
Local Abbreviation try_block :=
  (try_block w nuxeo_url nuxeo_user nuxeo_password model_arn).
Local Abbreviation detect_and_publish :=
  (detect_and_publish w nuxeo_url nuxeo_user nuxeo_password model_arn).

(** The first loop adds one element to exactly one of its two lists per
    message. *)
Lemma process_batch_length msgs :
  forall processed failed t processed' failed' t',
    process_batch msgs processed failed t = (processed', failed', t') ->
    length processed' + length failed'
    = length processed + length failed + length msgs.
Proof.
  induction msgs as [|msg rest IH]; intros processed failed t p' f' t' H.
  - cbn in H. inversion H; subst. cbn. lia.
  - cbn in H. destruct (process_message msg t) as [[e|why] t1].
    + apply IH in H. rewrite length_app in H. cbn in *. lia.
    + apply IH in H. rewrite length_app in H. cbn in *. lia.
Qed.

(** The loop over a concatenation is the loop over the second part started
    from the state the first part leaves. *)
Lemma process_batch_app ms1 ms2 :
  forall processed failed t,
    process_batch (ms1 ++ ms2) processed failed t
    = let '(p1, f1, t1) := process_batch ms1 processed failed t in
      process_batch ms2 p1 f1 t1.
Proof.
  induction ms1 as [|m ms1 IH]; intros processed failed t.
  - reflexivity.
  - cbn. destruct (process_message m t) as [[e|why] t1]; apply IH.
Qed.

(** [detect_and_publish] written out: one detection call, then, if it
    answered, one POST whose value is computed from the answer. *)
Lemma detect_and_publish_eq bucket image doc_uid t :
  detect_and_publish bucket image doc_uid t =
  let d := detect_custom_labels w t model_arn bucket image in
  let t1 := t ++ [EvDetect model_arn bucket image d] in
  match d with
  | Raise e => (Raise e, t1)
  | Ok custom_labels =>
      let payload :=
        {| xpath := "assetRecognition:landMark"; save := "true";
           value := labels_value (map Name custom_labels);
           input := doc_uid |} in
      let auth := (nuxeo_user, nuxeo_password) in
      let p := requests_post w t1 nuxeo_url payload headers auth 5 in
      let t2 := t1 ++ [EvPost nuxeo_url payload headers auth 5 p] in
      match p with
      | Raise e => (Raise e, t2)
      | Ok status_code =>
          match raise_for_status status_code with
          | Raise e => (Raise e, t2)
          | Ok _ => (Ok {| docUid := doc_uid;
                           labels := map Name custom_labels;
                           nuxeo_status := status_code |}, t2)
          end
      end
  end.
Proof.
  unfold AnalyseImageFunction.detect_and_publish, bind, call_detect,
    call_post, lift, ret.
  cbn.
  destruct (detect_custom_labels w t model_arn bucket image) as [ls|e];
    [|reflexivity].
  destruct (requests_post w _ nuxeo_url _ headers _ 5) as [code|e];
    [|reflexivity].
  destruct (raise_for_status code); reflexivity.
Qed.

(** [process_message] written out along the stages of the [try] block. *)
Lemma process_message_eq msg t :
  process_message msg t =
  match json_loads w (body msg) with
  | Raise e => (Failure (except_clauses e), t)
  | Ok msg_payload =>
      match extract_job msg_payload with
      | Raise e => (Failure (except_clauses e), t)
      | Ok (inl why) => (Failure why, t)
      | Ok (inr (bucket, image, doc_uid)) =>
          match detect_and_publish bucket image doc_uid t with
          | (Ok e, t') => (Success e, t')
          | (Raise e, t') => (Failure (except_clauses e), t')
          end
      end
  end.
Proof.
  unfold AnalyseImageFunction.process_message,
    AnalyseImageFunction.try_block, bind, lift, ret.
  destruct (json_loads w (body msg)) as [msg_payload|e]; [|reflexivity].
  destruct (extract_job msg_payload) as [[why|[[bucket image] doc_uid]]|e];
    try reflexivity.
  destruct (detect_and_publish bucket image doc_uid t) as [[e|e] t'];
    reflexivity.
Qed.

(** No iteration of the first loop sends anything to the dead-letter
    queue. *)
Lemma process_message_dlq_sends msg t :
  dlq_sends (snd (process_message msg t)) = dlq_sends t.
Proof.
  rewrite process_message_eq.
  destruct (json_loads w (body msg)) as [msg_payload|e]; [|reflexivity].
  destruct (extract_job msg_payload) as [[why|[[bucket image] doc_uid]]|e];
    try reflexivity.
  rewrite detect_and_publish_eq. cbn zeta.
  destruct (detect_custom_labels w t model_arn bucket image) as [ls|e].
  - destruct (requests_post w _ nuxeo_url _ headers _ 5) as [code|e].
    + destruct (raise_for_status code); cbn; unfold dlq_sends;
        rewrite !omap_app; cbn; by rewrite !app_nil_r.
    + cbn. unfold dlq_sends. rewrite !omap_app. cbn. by rewrite !app_nil_r.
  - cbn. unfold dlq_sends. rewrite omap_app. cbn. by rewrite app_nil_r.
Qed.

Lemma process_batch_dlq_sends msgs :
  forall processed failed t,
    dlq_sends (snd (process_batch msgs processed failed t)) = dlq_sends t.
Proof.
  induction msgs as [|msg rest IH]; intros processed failed t; [reflexivity|].
  cbn. pose proof (process_message_dlq_sends msg t) as Hm.
  destruct (process_message msg t) as [[e|why] t1]; cbn in Hm;
    rewrite IH; exact Hm.
Qed.

(** The failed list grows by a subsequence of the batch. *)
Lemma process_batch_failed msgs :
  forall processed failed t,
    exists fs,
      (process_batch msgs processed failed t).1.2 = failed ++ fs /\
      sublist fs msgs.
Proof.
  induction msgs as [|msg rest IH]; intros processed failed t.
  - exists []. cbn. by rewrite app_nil_r.
  - cbn. destruct (process_message msg t) as [[e|why] t1].
    + destruct (IH (processed ++ [e]) failed t1) as (fs & Hfs & Hsub).
      exists fs. split; [exact Hfs|]. by apply sublist_cons.
    + destruct (IH processed (failed ++ [msg]) t1) as (fs & Hfs & Hsub).
      exists (msg :: fs). split.
      * rewrite Hfs. by rewrite <- app_assoc.
      * by apply sublist_skip.
Qed.

(** What [extract_job] hands on is the decoded form of the raw key. *)
Lemma extract_job_key msg_payload bucket image doc_uid :
  extract_job msg_payload = Ok (inr (bucket, image, doc_uid)) ->
  exists key,
    raw_object_key msg_payload = Ok (JStr key) /\
    image = replace "+" " " key.
Proof.
  unfold extract_job, raw_object_key. intros H.
  destruct (contains "Records" msg_payload) as [[|]|]; try discriminate H.
  cbn in H.
  destruct (getitem msg_payload "Records") as [records|]; [|discriminate H].
  destruct (getitem0 records) as [record|]; [|discriminate H].
  destruct (getitem record "s3") as [s3|]; [|discriminate H].
  destruct (getitem s3 "bucket") as [bucket_obj|]; [|discriminate H].
  destruct (getitem bucket_obj "name") as [bucket'|]; [|discriminate H].
  destruct (getitem s3 "object") as [object|]; [|discriminate H].
  destruct (getitem object "key") as [key|]; [|discriminate H].
  destruct key as [| | | |key| |]; try discriminate H.
  cbn in H.
  destruct (getitem s3 "documentUUID") as [document|]; [|discriminate H].
  destruct (getitem document "uid") as [doc_uid'|]; [|discriminate H].
  destruct (negb _); [discriminate H|].
  inversion H; subst. by exists key.
Qed.

(** Only the head of the ["Records"] list reaches [extract_job]. *)
Lemma extract_job_first_record (d : gmap string json) r rest :
  d !! "Records" = Some (JList (r :: rest)) ->
  extract_job (JDict d) = extract_job (JDict {[ "Records" := JList [r] ]}).
Proof.
  intros H. unfold extract_job, contains, getitem.
  rewrite H, lookup_singleton_eq.
  rewrite !bool_decide_eq_true_2 by eauto.
  reflexivity.
Qed.

(** C8: for every successfully processed message, the value published to
    the document store is the comma-joined concatenation of the detected
    label names in the order the detector returned them, and it is exactly
    ["none"] when the detector returned no label. The statement is about one
    iteration of the loop, started at any trace: the iteration made exactly
    one detection call, which answered with [custom_labels], followed by
    exactly one POST carrying that value. The concatenation is
    [String.concat] of the standard library. *)
Theorem published_value_joins_labels msg t e t' :
  process_message msg t = (Success e, t') ->
  exists bucket image doc_uid custom_labels,
    let names := List.map Name custom_labels in
    let published :=
      match names with
      | [] => "none"
      | _ :: _ => String.concat "," names
      end in
    detect_custom_labels w t model_arn bucket image = Ok custom_labels /\
    t' = t ++ [EvDetect model_arn bucket image (Ok custom_labels);
               EvPost nuxeo_url (publish_payload doc_uid published) headers
                 (nuxeo_user, nuxeo_password) 5 (Ok (nuxeo_status e))] /\
    labels e = names /\
    docUid e = doc_uid.
Proof.
  rewrite process_message_eq. intros H.
  destruct (json_loads w (body msg)) as [msg_payload|]; [|discriminate H].
  destruct (extract_job msg_payload) as [[why|[[bucket image] doc_uid]]|];
    try discriminate H.
  rewrite detect_and_publish_eq in H. cbn zeta in H.
  exists bucket, image, doc_uid.
  destruct (detect_custom_labels w t model_arn bucket image)
    as [custom_labels|] eqn:Hd; [|discriminate H].
  exists custom_labels. cbn zeta.
  assert (Hvalue : labels_value (List.map Name custom_labels)
                   = match List.map Name custom_labels with
                     | [] => "none"
                     | _ :: _ => String.concat "," (List.map Name custom_labels)
                     end).
  { unfold labels_value.
    destruct (List.map Name custom_labels) as [|x l]; [reflexivity|].
    apply join_is_concat. }
  rewrite <- Hvalue.
  destruct (requests_post w _ nuxeo_url _ headers _ 5) as [code|] eqn:Hp;
    [|discriminate H].
  destruct (raise_for_status code); [|discriminate H].
  inversion H; subst; clear H. cbn.
  split; [reflexivity|]. split; [|done].
  rewrite <- app_assoc. reflexivity.
Qed.

(** C9: for every parsed message, the object key passed to the detection
    backend is the raw object key of the first record with every ['+']
    replaced by a space. First, every detection call that an iteration of
    the loop makes carries the configured model and a name that is, character
    by character, the raw key with a space for each ['+'] and every other
    character unchanged. Second, a message that passes parsing and validation
    does lead to a detection call, as the first call of its iteration, and
    that call carries this decoded key. *)
Theorem detection_key_is_decoded msg t o t' :
  process_message msg t = (o, t') ->
  let decode := fun c : ascii => if Ascii.eqb c "+" then " "%char else c in
  (exists calls,
     t' = t ++ calls /\
     forall arn bucket name r,
       EvDetect arn bucket name r ∈ calls ->
       exists msg_payload key,
         json_loads w (body msg) = Ok msg_payload /\
         raw_object_key msg_payload = Ok (JStr key) /\
         name = replace "+" " " key /\
         list_ascii_of_string name
         = List.map decode (list_ascii_of_string key) /\
         arn = model_arn) /\
  (forall msg_payload bucket image doc_uid,
     json_loads w (body msg) = Ok msg_payload ->
     extract_job msg_payload = Ok (inr (bucket, image, doc_uid)) ->
     exists key rest,
       raw_object_key msg_payload = Ok (JStr key) /\
       list_ascii_of_string image
       = List.map decode (list_ascii_of_string key) /\
       t' = t ++ EvDetect model_arn bucket image
                   (detect_custom_labels w t model_arn bucket image) :: rest).
Proof.
  rewrite process_message_eq. intros H decode.
  destruct (json_loads w (body msg)) as [msg_payload|].
  2:{ split.
      - inversion H; subst. exists []. split; [by rewrite app_nil_r|].
        intros ???? Hin. by apply elem_of_nil in Hin.
      - intros ???? Hl. discriminate Hl. }
  destruct (extract_job msg_payload) as [[why|[[bucket image] doc_uid]]|]
    eqn:Hjob.
  1,3: split;
       [ inversion H; subst; exists []; (split; [by rewrite app_nil_r|]);
         intros ???? Hin; by apply elem_of_nil in Hin
       | intros ???? Hl Hj; inversion Hl; subst; rewrite Hjob in Hj;
         discriminate Hj ].
  apply extract_job_key in Hjob as Hkey. destruct Hkey as (key & Hkey & ->).
  rewrite detect_and_publish_eq in H. cbn zeta in H.
  set (d := detect_custom_labels w t model_arn bucket (replace "+" " " key))
    in H.
  assert (Hcalls : exists rest,
             t' = t ++ EvDetect model_arn bucket (replace "+" " " key) d :: rest
             /\ forall arn b name r, EvDetect arn b name r ∉ rest).
  { destruct d as [custom_labels|].
    - match type of H with
      | context [EvPost ?u ?p ?h ?a ?to ?r] =>
          exists [EvPost u p h a to r]
      end.
      split.
      + destruct (requests_post w _ _ _ _ _ _) as [code|];
          [destruct (raise_for_status code)|];
          inversion H; subst; by rewrite <- app_assoc.
      + intros ???? Hin. apply list_elem_of_singleton in Hin. discriminate Hin.
    - exists []. split; [by inversion H|].
      intros ???? Hin. by apply elem_of_nil in Hin. }
  destruct Hcalls as (rest & -> & Hrest).
  split.
  - eexists. split; [reflexivity|].
    intros arn b name r Hin. apply elem_of_cons in Hin as [Heq|Hin].
    + inversion Heq; subst. exists msg_payload, key.
      repeat split; auto. apply replace_plus_chars.
    + by apply Hrest in Hin.
  - intros msg_payload' bucket' image' doc_uid' Hl Hj.
    inversion Hl; subst msg_payload'. rewrite Hjob in Hj.
    inversion Hj; subst. exists key, rest.
    split; [exact Hkey|]. split; [apply replace_plus_chars|reflexivity].
Qed.

(** C10: when the parsed body holds a ["Records"] list, only its first
    record is used: two messages whose payloads have the same first record
    are classified alike, lead to the same detection call and the same
    published value, whatever records follow the first. *)
Theorem only_first_record_is_used msg msg' (d d' : gmap string json)
    r rest rest' t :
  json_loads w (body msg) = Ok (JDict d) ->
  json_loads w (body msg') = Ok (JDict d') ->
  d !! "Records" = Some (JList (r :: rest)) ->
  d' !! "Records" = Some (JList (r :: rest')) ->
  process_message msg t = process_message msg' t.
Proof.
  intros Hl Hl' Hr Hr'.
  rewrite !process_message_eq, Hl, Hl'.
  rewrite (extract_job_first_record d r rest Hr).
  rewrite (extract_job_first_record d' r rest' Hr').
  reflexivity.
Qed.

End Facts.

Section HandlerFacts.

Context (w : World).

(** The second loop sends the raw bodies of a prefix of the failed messages,
    in order, and of all of them when it ends without raising. *)
Lemma send_to_dlq_sends dlq failed :
  forall t r t',
    send_to_dlq w dlq failed t = (r, t') ->
    exists k,
      dlq_sends t' = dlq_sends t ++ map (fun m => (dlq, body m)) (take k failed)
      /\ (forall u, r = Ok u -> k = length failed).
Proof.
  induction failed as [|m rest IH]; intros t r t' H.
  - cbn in H. inversion H; subst. exists 0. cbn. by rewrite app_nil_r.
  - cbn in H. unfold call_send in H.
    set (ev := EvSend dlq (body m) (send_message w t dlq (body m))) in H.
    assert (Hev : dlq_sends (t ++ [ev]) = dlq_sends t ++ [(dlq, body m)]).
    { unfold dlq_sends. by rewrite omap_app. }
    destruct (send_message w t dlq (body m)) as [u|e].
    + apply IH in H as (k & Hk & Hall). exists (S k). split.
      * rewrite Hk, Hev. by rewrite <- app_assoc.
      * intros u' ->. cbn. f_equal. by eapply Hall.
    + destruct e;
        try (inversion H; subst; exists 1; split;
             [by rewrite Hev | intros u' Hu; discriminate Hu]).
      apply IH in H as (k & Hk & Hall). exists (S k). split.
      * rewrite Hk, Hev. by rewrite <- app_assoc.
      * intros u' ->. cbn. f_equal. by eapply Hall.
Qed.

Lemma send_to_dlq_returns dlq failed :
  dlq_raises_only_client_error w ->
  forall t, exists t', send_to_dlq w dlq failed t = (Ok tt, t').
Proof.
  intros Hce. induction failed as [|m rest IH]; intros t.
  - exists t. reflexivity.
  - cbn. unfold call_send.
    destruct (send_message w t dlq (body m)) as [u|e] eqn:Hs.
    + apply IH.
    + apply Hce in Hs. subst e. apply IH.
Qed.

(** The handler once the two guarded settings are present. *)
Lemma lambda_handler_configured env event dlq arn t :
  env !! "DLQ_URL" = Some dlq ->
  str_truthy dlq = true ->
  env !! "rekognition_model_project_version_arn" = Some arn ->
  lambda_handler w env event t =
  match process_batch w (env !! "Nuxeo_Endpoint") (env !! "Nuxeo_User")
          (env !! "Nuxeo_Password") arn (Records event) [] [] t with
  | (processed_messages, failed_messages, t1) =>
      match send_to_dlq w dlq failed_messages t1 with
      | (Ok _, t2) =>
          (Ok (Report "200" (length processed_messages)
                 (length failed_messages) processed_messages), t2)
      | (Raise e, t2) => (Raise e, t2)
      end
  end.
Proof.
  intros Hdlq Htruthy Harn.
  unfold lambda_handler, environ_getitem, bind, lift, ret.
  rewrite Hdlq, Htruthy, Harn. cbn.
  destruct (process_batch w _ _ _ arn (Records event) [] [] t)
    as [[processed failed] t1].
  destruct (send_to_dlq w dlq failed t1) as [[u|e] t2]; reflexivity.
Qed.

(** Without a usable [DLQ_URL] the handler answers at once. *)
Lemma lambda_handler_no_dlq env event t :
  opt_truthy (env !! "DLQ_URL") = false ->
  lambda_handler w env event t
  = (Ok (ErrorResponse "500" "DLQ_URL not configured"), t).
Proof.
  intros H. unfold lambda_handler.
  destruct (env !! "DLQ_URL") as [dlq|]; [|reflexivity].
  cbn in H. rewrite H. reflexivity.
Qed.

(** With [DLQ_URL] set, a missing model ARN is a [KeyError] at once. *)
Lemma lambda_handler_no_arn env event t :
  opt_truthy (env !! "DLQ_URL") = true ->
  env !! "rekognition_model_project_version_arn" = None ->
  lambda_handler w env event t = (Raise KeyError, t).
Proof.
  intros H Harn. unfold lambda_handler, environ_getitem, bind, lift.
  destruct (env !! "DLQ_URL") as [dlq|]; [|discriminate H].
  cbn in H. rewrite H, Harn. reflexivity.
Qed.

(** C1: for every batch of N inbound messages, the report the handler
    returns satisfies [processed + failed = N]: each message is counted once,
    in [results] or among the failed messages, which are messages of the
    batch in their order. *)
Theorem report_counts_sum_to_batch_size env event t status processed failed
    results t' :
  lambda_handler w env event t
  = (Ok (Report status processed failed results), t') ->
  processed + failed = length (Records event) /\
  processed = length results /\
  exists failed_messages,
    failed = length failed_messages /\
    sublist failed_messages (Records event).
Proof.
  intros H.
  destruct (opt_truthy (env !! "DLQ_URL")) eqn:Hdlq.
  2:{ rewrite lambda_handler_no_dlq in H by done. discriminate H. }
  destruct (env !! "rekognition_model_project_version_arn") as [arn|] eqn:Harn.
  2:{ rewrite lambda_handler_no_arn in H by done. discriminate H. }
  destruct (env !! "DLQ_URL") as [dlq|] eqn:Hurl; [|discriminate Hdlq].
  cbn in Hdlq.
  rewrite (lambda_handler_configured env event dlq arn t Hurl Hdlq Harn) in H.
  pose proof (process_batch_length w (env !! "Nuxeo_Endpoint")
                (env !! "Nuxeo_User") (env !! "Nuxeo_Password") arn
                (Records event) [] [] t) as Hlen.
  destruct (process_batch_failed w (env !! "Nuxeo_Endpoint")
              (env !! "Nuxeo_User") (env !! "Nuxeo_Password") arn
              (Records event) [] [] t) as (fs & Hfs & Hsub).
  destruct (process_batch w _ _ _ arn (Records event) [] [] t)
    as [[processed_messages failed_messages] t1].
  specialize (Hlen _ _ _ eq_refl). cbn in Hlen, Hfs. subst fs.
  destruct (send_to_dlq w dlq failed_messages t1) as [[u|e] t2];
    [|discriminate H].
  inversion H; subst. split; [done|]. split; [done|].
  by exists failed_messages.
Qed.


(** C7: for every message classified as failed, the body sent to the
    dead-letter queue is the [body] field of the inbound message itself,
    unchanged. The sends of an invocation are, in order, the bodies of the
    first [k] failed messages, and of all of them when the handler returns
    its report. *)
Theorem dead_letter_bodies_are_raw env event dlq arn r t' :
  env !! "DLQ_URL" = Some dlq ->
  str_truthy dlq = true ->
  env !! "rekognition_model_project_version_arn" = Some arn ->
  lambda_handler w env event [] = (r, t') ->
  exists failed_messages k,
    (process_batch w (env !! "Nuxeo_Endpoint") (env !! "Nuxeo_User")
       (env !! "Nuxeo_Password") arn (Records event) [] [] []).1.2
    = failed_messages /\
    sublist failed_messages (Records event) /\
    dlq_sends t' = map (fun m => (dlq, body m)) (take k failed_messages) /\
    (returns_report r = true ->
     dlq_sends t' = map (fun m => (dlq, body m)) failed_messages).
Proof.
  intros Hurl Htruthy Harn H.
  rewrite (lambda_handler_configured env event dlq arn [] Hurl Htruthy Harn)
    in H.
  pose proof (process_batch_dlq_sends w (env !! "Nuxeo_Endpoint")
                (env !! "Nuxeo_User") (env !! "Nuxeo_Password") arn
                (Records event) [] [] []) as Hno.
  destruct (process_batch_failed w (env !! "Nuxeo_Endpoint")
              (env !! "Nuxeo_User") (env !! "Nuxeo_Password") arn
              (Records event) [] [] []) as (fs & Hfs & Hsub).
  destruct (process_batch w _ _ _ arn (Records event) [] [] [])
    as [[processed_messages failed_messages] t1].
  cbn [fst snd] in Hno, Hfs. cbn in Hfs. subst fs.
  destruct (send_to_dlq w dlq failed_messages t1) as [ru t2] eqn:Hsend.
  apply send_to_dlq_sends in Hsend as (k & Hk & Hall).
  rewrite Hno in Hk. cbn in Hk.
  assert (t' = t2) as -> by (destruct ru; by inversion H).
  exists failed_messages, k. split; [done|]. split; [done|].
  split; [done|].
  intros Hreport. destruct ru as [u|e].
  - rewrite Hk, (Hall u eq_refl). by rewrite firstn_all.
  - inversion H; subst. discriminate Hreport.
Qed.

End HandlerFacts.

End AnalyseImageFacts.

(** ** Properties of the backlog gate *)

Module PollerFacts.
Import sqs_poller Observations.

(** Stripping leading zeros leaves no leading zero. *)
Lemma nzhead_head d :
  match nzhead d with
  | D0 _ => False
  | _ => True
  end.
Proof. induction d; cbn; auto. Qed.

(** The decimal text of a count starts with a digit, and that digit is
    ['0'] exactly for the count 0. *)
Lemma decimal_first_char n :
  exists c rest k,
    decimal n = String c rest /\
    int_of_char c = Ok k /\
    (k >? 0)%Z = (0 <? n)%N.
Proof.
  unfold decimal.
  pose proof (DecimalN.Unsigned.to_of (N.to_uint n)) as Hnorm.
  rewrite DecimalN.Unsigned.of_to in Hnorm.
  pose proof (nzhead_head (N.to_uint n)) as Hhead.
  unfold unorm in Hnorm.
  destruct n as [|p].
  - by exists "0"%char, "", 0%Z.
  - assert (Hpos : (0 <? N.pos p)%N = true) by (apply N.ltb_lt; lia).
    rewrite Hpos.
    destruct (nzhead (N.to_uint (N.pos p))) eqn:Hnz.
    + exfalso. change zero with (N.to_uint 0) in Hnorm.
      apply DecimalN.Unsigned.to_uint_inj in Hnorm. discriminate Hnorm.
    + destruct Hhead.
    + rewrite Hnorm. by eexists "1"%char, _, 1%Z.
    + rewrite Hnorm. by eexists "2"%char, _, 2%Z.
    + rewrite Hnorm. by eexists "3"%char, _, 3%Z.
    + rewrite Hnorm. by eexists "4"%char, _, 4%Z.
    + rewrite Hnorm. by eexists "5"%char, _, 5%Z.
    + rewrite Hnorm. by eexists "6"%char, _, 6%Z.
    + rewrite Hnorm. by eexists "7"%char, _, 7%Z.
    + rewrite Hnorm. by eexists "8"%char, _, 8%Z.
    + rewrite Hnorm. by eexists "9"%char, _, 9%Z.
Qed.

(** C4, amended: for every approximate count the queue reports, the gate
    returns the token ["incoming"] when the count is greater than 0 and the
    token ["stop"] when it is 0. *)
Theorem backlog_gate_tokens gqa (env : environ) url
    (attributes : gmap string string) n :
  env !! "SQS_Queue_URL" = Some url ->
  gqa url ["ApproximateNumberOfMessages"] = Ok attributes ->
  attributes !! "ApproximateNumberOfMessages" = Some (decimal n) ->
  lambda_handler gqa env = Ok (if (0 <? n)%N then "incoming" else "stop").
Proof.
  intros Henv Hq Ha.
  unfold lambda_handler, environ_getitem. rewrite Henv, Hq, Ha.
  destruct (decimal_first_char n) as (c & rest & k & -> & Hk & Hpos).
  cbn [first_char]. rewrite Hk, Hpos.
  by destruct (0 <? n)%N.
Qed.

End PollerFacts.

(** ** Properties of the lifecycle handlers *)

Module LifecycleFacts.
Import Observations.

Section Start.
Import StartModelFunction.

Context (w : World).

(** C5, amended: for every state the describe operation returns, if the
    state is [RUNNING] or [STARTING] the handler issues no start request and
    returns that state as a string; otherwise it issues exactly one start
    request, with [MinInferenceUnits] 1, and returns the response of that
    request (or raises what the request raised). *)
Theorem ensure_running_starts_once env t vars name status t1 :
  get_environment_variables env = Ok vars ->
  get_project_version_name (project_version_arn vars) = Ok name ->
  describe_project_version w (project_arn vars) name t = (Ok status, t1) ->
  (status = "RUNNING" \/ status = "STARTING" ->
   lambda_handler w env t = (Ok (RetStatus status), t1) /\
   start_requests t1 = start_requests t)
  /\
  (status <> "RUNNING" -> status <> "STARTING" ->
   exists r,
     lambda_handler w env t
     = (match r with
        | Ok response => Ok (RetResponse response)
        | Raise e => Raise e
        end,
        t1 ++ [EvStart (project_version_arn vars) 1 r]) /\
     start_requests (t1 ++ [EvStart (project_version_arn vars) 1 r])
     = start_requests t ++ [(project_version_arn vars, 1%Z)]).
Proof.
  intros Henv Hname Hd.
  assert (Ht1 : start_requests t1 = start_requests t).
  { unfold describe_project_version in Hd.
    destruct (describe_project_versions w t _ _) as [[|s l]|];
      inversion Hd; subst; unfold start_requests;
      rewrite omap_app; cbn; by rewrite app_nil_r. }
  unfold lambda_handler. rewrite Henv, Hname, Hd. split.
  - intros Hs. rewrite bool_decide_eq_true_2; [done|].
    destruct Hs as [-> | ->].
    + apply list_elem_of_here.
    + apply list_elem_of_further, list_elem_of_here.
  - intros Hr Hs.
    assert (Hnot : status ∉ ["RUNNING"; "STARTING"]).
    { intros Hin. apply elem_of_cons in Hin as [?|Hin]; [done|].
      apply list_elem_of_singleton in Hin. done. }
    rewrite (bool_decide_eq_false_2 _ Hnot).
    unfold start_project_version.
    exists (rekog_start_project_version w t1 (project_version_arn vars) 1).
    split.
    + by destruct (rekog_start_project_version w t1 _ 1).
    + unfold start_requests in *. rewrite omap_app, Ht1. reflexivity.
Qed.

End Start.

Section Stop.
Import StopModelFunction.

Context (w : World).

(** The notification step issues no stop request. *)
Lemma send_nuxeo_request_stop_requests ev vars t :
  stop_requests (send_nuxeo_request w ev vars t).2 = stop_requests t.
Proof.
  unfold send_nuxeo_request.
  destruct (ev !! "userEmail") as [user_email|]; [|reflexivity].
  destruct (negb (truthy user_email)); [reflexivity|].
  assert (Hpost : forall u h p a to r,
             stop_requests (t ++ [EvPost u h p a to r]) = stop_requests t).
  { intros. unfold stop_requests. rewrite omap_app. cbn. by rewrite app_nil_r. }
  destruct (requests_post w t _ _ _ _ _) as [status_code|e].
  - destruct (raise_for_status status_code); [|apply Hpost].
    destruct (_ && _); apply Hpost.
  - destruct e; apply Hpost.
Qed.

(** C6: the handler issues a stop request if and only if the described
    state is [RUNNING] or [STARTING] (so none when it is [STOPPED]); when the
    describe operation fails there is no described state, no stop request is
    issued, and in every case the handler goes on to the notification step
    and returns its result instead of failing. *)
Theorem ensure_stopped_then_notifies ev env t vars name :
  get_environment_variables env = Ok vars ->
  split "/" (project_version_arn vars) !! 3 = Some name ->
  let d := describe_project_versions w t (project_arn vars) [name] in
  let state := described_state d in
  let running :=
    bool_decide (state = Some "RUNNING" \/ state = Some "STARTING") in
  exists t2,
    stop_requests t2
    = stop_requests t ++ (if running then [project_version_arn vars] else [])
    /\
    lambda_handler w ev env t
    = match send_nuxeo_request w ev vars t2 with
      | (Ok r, t') => (r, t')
      | (Raise e, t') => (handler_except e, t')
      end
    /\
    stop_requests (lambda_handler w ev env t).2 = stop_requests t2.
Proof.
  intros Henv Hname d state running.
  set (t1 := t ++ [EvDescribe (project_arn vars) [name] d]).
  assert (Ht1 : stop_requests t1 = stop_requests t).
  { unfold stop_requests, t1. rewrite omap_app. cbn. by rewrite app_nil_r. }
  assert (Htry : exists t2,
            stop_requests t2
            = stop_requests t
              ++ (if running then [project_version_arn vars] else []) /\
            handler_try w ev env t = send_nuxeo_request w ev vars t2).
  { unfold handler_try, check_model_running_status.
    rewrite Henv, Hname. fold d. fold t1.
    subst running state. destruct d as [[|status rest]|e]; cbn.
    - exists t1. split; [|done].
      rewrite bool_decide_eq_false_2 by (intros [?|?]; done).
      by rewrite app_nil_r.
    - unfold stop_model_if_running, str_truthy.
      destruct (decide (status = "RUNNING")) as [->|Hr].
      { rewrite (bool_decide_eq_true_2 (_ ∈ _))
          by apply list_elem_of_further, list_elem_of_here.
        cbn. eexists. split; [|reflexivity].
        rewrite (bool_decide_eq_true_2 (_ \/ _)) by (by left).
        unfold stop_requests in *. rewrite omap_app, Ht1. reflexivity. }
      destruct (decide (status = "STARTING")) as [->|Hs].
      { rewrite (bool_decide_eq_true_2 (_ ∈ _)) by apply list_elem_of_here.
        cbn. eexists. split; [|reflexivity].
        rewrite (bool_decide_eq_true_2 (_ \/ _)) by (by right).
        unfold stop_requests in *. rewrite omap_app, Ht1. reflexivity. }
      assert (Hnot : status ∉ ["STARTING"; "RUNNING"]).
      { intros Hin. apply elem_of_cons in Hin as [?|Hin]; [done|].
        apply list_elem_of_singleton in Hin. done. }
      rewrite (bool_decide_eq_false_2 _ Hnot).
      exists t1. split.
      + rewrite bool_decide_eq_false_2 by (intros [?|?]; congruence).
        by rewrite app_nil_r.
      + by destruct (negb (String.eqb status "")).
    - exists t1. split; [|done].
      rewrite bool_decide_eq_false_2 by (intros [?|?]; done).
      by rewrite app_nil_r. }
  destruct Htry as (t2 & Hstops & Htry).
  exists t2. split; [done|].
  unfold lambda_handler. rewrite Htry.
  pose proof (send_nuxeo_request_stop_requests ev vars t2) as Hn.
  split; [done|].
  by destruct (send_nuxeo_request w ev vars t2) as [[r|e] t'].
Qed.

End Stop.

End LifecycleFacts.

(** ** The properties at work on the concrete worlds *)

Module ScenarioFacts.
Import AnalyseImageFunction Observations Scenarios.
Import AnalyseImageFacts PollerFacts LifecycleFacts.

(** The join used for the published value, on the labels of the demo
    detector. *)
Example join_cat_dog : join "," ["cat"; "dog"] = "cat,dog".
Proof. reflexivity. Qed.

Example replace_foo_bar : replace "+" " " "foo+bar.jpg" = "foo bar.jpg".
Proof. reflexivity. Qed.

(** One malformed and one valid message: one processed, one failed, and
    the valid message is published with the value for no label. *)
Example malformed_then_valid :
  (lambda_handler demo_world full_env {| Records := [msg_bad; msg_plain] |} []).1
  = Ok (Report "200" 1 1
          [{| docUid := JStr "doc-3"; labels := []; nuxeo_status := 200 |}]).
Proof. vm_compute. reflexivity. Qed.

(** A response with a 5xx status makes the message fail after its POST. *)
Example server_error_fails_the_message :
  raise_for_status 503 = Raise RequestException /\
  raise_for_status 200 = Ok tt.
Proof. split; reflexivity. Qed.

(** Three of the four messages of the demo batch are processed, one
    fails. *)
Lemma report_counts_example :
  exists results t',
    lambda_handler demo_world full_env demo_batch []
    = (Ok (Report "200" 3 1 results), t') /\
    3 + 1 = length (Records demo_batch).
Proof.
  eexists _, _. split.
  - vm_compute. reflexivity.
  - eapply (report_counts_sum_to_batch_size demo_world full_env demo_batch []
              "200" 3 1).
    vm_compute. reflexivity.
Defined.

(** C2: a failure at any per-message stage is to produce a failure for that
    message only, and the invocation is to return the structured report even
    when every message fails. Here the code does not: the one message of the
    batch is not JSON and is classified as failed, the queue endpoint cannot
    be reached, so the dead-letter send raises a connection error, which is
    not a [ClientError]; the [except ClientError] clause of the second loop
    does not match it, and the invocation ends with that exception instead
    of the report. *)
Lemma dlq_outage_loses_the_report :
  process_message dlq_unreachable_world (full_env !! "Nuxeo_Endpoint")
    (full_env !! "Nuxeo_User") (full_env !! "Nuxeo_Password")
    "arn:model/v1" msg_bad []
  = (Failure InvalidJSON, []) /\
  lambda_handler dlq_unreachable_world full_env {| Records := [msg_bad] |} []
  = (Raise OtherException,
     [EvSend "https://sqs/dlq" "not+json {" (Raise OtherException)]) /\
  returns_report
    (lambda_handler dlq_unreachable_world full_env
       {| Records := [msg_bad] |} []).1 = false.
Proof. repeat split; vm_compute; reflexivity. Qed.



(** The body that is not JSON reaches the dead-letter queue with its ['+']
    in place. *)
Lemma dead_letter_bodies_example :
  dlq_sends (lambda_handler demo_world full_env demo_batch []).2
  = [("https://sqs/dlq", "not+json {")].
Proof.
  destruct (dead_letter_bodies_are_raw demo_world full_env demo_batch
              "https://sqs/dlq" "arn:model/v1"
              (lambda_handler demo_world full_env demo_batch []).1
              (lambda_handler demo_world full_env demo_batch []).2)
    as (failed_messages & k & Hfailed & _ & _ & Hall).
  - vm_compute. reflexivity.
  - vm_compute. reflexivity.
  - vm_compute. reflexivity.
  - vm_compute. reflexivity.
  - rewrite Hall.
    + rewrite <- Hfailed. vm_compute. reflexivity.
    + vm_compute. reflexivity.
Defined.

(** The message of the specification: the detector answers cat and dog and
    the POST carries the value ["cat,dog"]; for the message whose image has
    no label the POST carries the value ["none"]. *)
Lemma published_value_example :
  let url := Some "https://nuxeo/api" in
  let auth := (Some "svc", Some "secret") in
  let cat_dog := [{| Name := "cat" |}; {| Name := "dog" |}] in
  let entry_foo :=
    {| docUid := JStr "doc-1"; labels := ["cat"; "dog"]; nuxeo_status := 200 |} in
  let entry_plain :=
    {| docUid := JStr "doc-3"; labels := []; nuxeo_status := 200 |} in
  let trace_foo :=
    [EvDetect "arn:model/v1" (JStr "b1") "foo bar.jpg" (Ok cat_dog);
     EvPost url
       {| xpath := "assetRecognition:landMark"; save := "true";
          value := "cat,dog"; input := JStr "doc-1" |}
       headers auth 5 (Ok 200%Z)] in
  let trace_plain :=
    [EvDetect "arn:model/v1" (JStr "b1") "plain.jpg" (Ok []);
     EvPost url
       {| xpath := "assetRecognition:landMark"; save := "true";
          value := "none"; input := JStr "doc-3" |}
       headers auth 5 (Ok 200%Z)] in
  process_message demo_world url (Some "svc") (Some "secret") "arn:model/v1"
    msg_foo [] = (Success entry_foo, trace_foo) /\
  process_message demo_world url (Some "svc") (Some "secret") "arn:model/v1"
    msg_plain [] = (Success entry_plain, trace_plain) /\
  (exists bucket image doc_uid custom_labels,
     List.map Name custom_labels = ["cat"; "dog"] /\
     trace_foo
     = [] ++ [EvDetect "arn:model/v1" bucket image (Ok custom_labels);
              EvPost url
                (publish_payload doc_uid
                   (String.concat "," (List.map Name custom_labels)))
                headers auth 5 (Ok 200%Z)]) /\
  (exists bucket image doc_uid custom_labels,
     List.map Name custom_labels = [] /\
     trace_plain
     = [] ++ [EvDetect "arn:model/v1" bucket image (Ok custom_labels);
              EvPost url (publish_payload doc_uid "none")
                headers auth 5 (Ok 200%Z)]).
Proof.
  cbv zeta.
  split; [vm_compute; reflexivity|].
  split; [vm_compute; reflexivity|].
  split.
  - destruct (published_value_joins_labels demo_world
                (Some "https://nuxeo/api") (Some "svc") (Some "secret")
                "arn:model/v1" msg_foo []
                {| docUid := JStr "doc-1"; labels := ["cat"; "dog"];
                   nuxeo_status := 200 |}
                [EvDetect "arn:model/v1" (JStr "b1") "foo bar.jpg"
                   (Ok [{| Name := "cat" |}; {| Name := "dog" |}]);
                 EvPost (Some "https://nuxeo/api")
                   {| xpath := "assetRecognition:landMark"; save := "true";
                      value := "cat,dog"; input := JStr "doc-1" |}
                   headers (Some "svc", Some "secret") 5 (Ok 200%Z)])
      as (bucket & image & doc_uid & custom_labels & Hd & Ht & Hl & Hu).
    + vm_compute. reflexivity.
    + cbn [labels] in Hl. cbv zeta in Ht. rewrite <- Hl in Ht.
      exists bucket, image, doc_uid, custom_labels.
      split; [by rewrite <- Hl|]. rewrite <- Hl. exact Ht.
  - destruct (published_value_joins_labels demo_world
                (Some "https://nuxeo/api") (Some "svc") (Some "secret")
                "arn:model/v1" msg_plain []
                {| docUid := JStr "doc-3"; labels := []; nuxeo_status := 200 |}
                [EvDetect "arn:model/v1" (JStr "b1") "plain.jpg" (Ok []);
                 EvPost (Some "https://nuxeo/api")
                   {| xpath := "assetRecognition:landMark"; save := "true";
                      value := "none"; input := JStr "doc-3" |}
                   headers (Some "svc", Some "secret") 5 (Ok 200%Z)])
      as (bucket & image & doc_uid & custom_labels & Hd & Ht & Hl & Hu).
    + vm_compute. reflexivity.
    + cbn [labels] in Hl. cbv zeta in Ht. rewrite <- Hl in Ht.
      exists bucket, image, doc_uid, custom_labels.
      split; [by rewrite <- Hl|]. exact Ht.
Defined.

(** The key ["foo+bar.jpg"] reaches the detector as ["foo bar.jpg"]: the
    iteration starts with that detection call. *)
Lemma detection_key_example :
  let payload := payload_of [s3_record "b1" "foo+bar.jpg" "doc-1"] in
  json_loads demo_world (body msg_foo) = Ok payload /\
  raw_object_key payload = Ok (JStr "foo+bar.jpg") /\
  exists rest,
    (process_message demo_world (Some "https://nuxeo/api") (Some "svc")
       (Some "secret") "arn:model/v1" msg_foo []).2
    = [] ++ EvDetect "arn:model/v1" (JStr "b1") "foo bar.jpg"
              (Ok [{| Name := "cat" |}; {| Name := "dog" |}]) :: rest.
Proof.
  cbv zeta.
  split; [vm_compute; reflexivity|].
  split; [vm_compute; reflexivity|].
  destruct (detection_key_is_decoded demo_world (Some "https://nuxeo/api")
              (Some "svc") (Some "secret") "arn:model/v1" msg_foo []
              (process_message demo_world (Some "https://nuxeo/api")
                 (Some "svc") (Some "secret") "arn:model/v1" msg_foo []).1
              (process_message demo_world (Some "https://nuxeo/api")
                 (Some "svc") (Some "secret") "arn:model/v1" msg_foo []).2)
    as [_ Hcall].
  - vm_compute. reflexivity.
  - destruct (Hcall (payload_of [s3_record "b1" "foo+bar.jpg" "doc-1"])
                (JStr "b1") "foo bar.jpg" (JStr "doc-1"))
      as (key & rest & _ & _ & Ht).
    + vm_compute. reflexivity.
    + vm_compute. reflexivity.
    + exists rest. exact Ht.
Defined.

(** A second record changes nothing. *)
Lemma only_first_record_example :
  process_message demo_world (Some "https://nuxeo/api") (Some "svc")
    (Some "secret") "arn:model/v1" msg_foo []
  = process_message demo_world (Some "https://nuxeo/api") (Some "svc")
      (Some "secret") "arn:model/v1" msg_two [].
Proof.
  eapply (only_first_record_is_used demo_world _ _ _ _ msg_foo msg_two
            {[ "Records" := JList [s3_record "b1" "foo+bar.jpg" "doc-1"] ]}
            {[ "Records" := JList [s3_record "b1" "foo+bar.jpg" "doc-1";
                                   s3_record "b2" "other.jpg" "doc-2"] ]}
            (s3_record "b1" "foo+bar.jpg" "doc-1") []
            [s3_record "b2" "other.jpg" "doc-2"]).
  - reflexivity.
  - reflexivity.
  - vm_compute. reflexivity.
  - vm_compute. reflexivity.
Defined.

(** With one message waiting the gate answers ["incoming"], which is not
    the token ["continue"]. *)
Lemma gate_token_is_incoming :
  sqs_poller.lambda_handler (queue_reports 1) poller_env = Ok "incoming" /\
  sqs_poller.lambda_handler (queue_reports 1) poller_env <> Ok "continue".
Proof.
  split; [vm_compute; reflexivity|].
  intros H. vm_compute in H. discriminate H.
Qed.

(** Twelve messages waiting. *)
Lemma backlog_gate_example :
  sqs_poller.lambda_handler (queue_reports 12) poller_env = Ok "incoming".
Proof.
  apply (backlog_gate_tokens (queue_reports 12) poller_env
           "https://sqs/incoming"
           {[ "ApproximateNumberOfMessages" := decimal 12 ]} 12).
  - vm_compute. reflexivity.
  - reflexivity.
  - vm_compute. reflexivity.
Defined.

(** From [STOPPED] the handler starts the model and returns the response of
    the start call, which is not a string. *)
Lemma start_returns_the_response :
  StartModelFunction.lambda_handler (start_world "STOPPED") start_env []
  = (Ok (StartModelFunction.RetResponse
           {| StartModelFunction.Status := "STARTING" |}),
     [StartModelFunction.EvDescribe "arn:aws:rekognition:r:1:project/p/1"
        ["v1"] (Ok ["STOPPED"]);
      StartModelFunction.EvStart
        "arn:aws:rekognition:r:1:project/p/version/v1/17" 1
        (Ok {| StartModelFunction.Status := "STARTING" |})]) /\
  is_string_token
    (StartModelFunction.lambda_handler (start_world "STOPPED") start_env []).1
  = false.
Proof. split; vm_compute; reflexivity. Qed.

(** From [STOPPED]: one start request with one inference unit. *)
Lemma ensure_running_example :
  exists r t',
    StartModelFunction.lambda_handler (start_world "STOPPED") start_env []
    = (match r with
       | Ok response => Ok (StartModelFunction.RetResponse response)
       | Raise e => Raise e
       end, t') /\
    start_requests t'
    = [("arn:aws:rekognition:r:1:project/p/version/v1/17", 1%Z)].
Proof.
  destruct (ensure_running_starts_once (start_world "STOPPED") start_env []
              start_vars "v1" "STOPPED"
              [StartModelFunction.EvDescribe
                 "arn:aws:rekognition:r:1:project/p/1" ["v1"] (Ok ["STOPPED"])])
    as [_ Hstart].
  - vm_compute. reflexivity.
  - vm_compute. reflexivity.
  - vm_compute. reflexivity.
  - destruct Hstart as (r & Hrun & Hreq); [discriminate|discriminate|].
    exists r. eexists. split; [exact Hrun|exact Hreq].
Defined.

(** From [STOPPED]: no stop request, and the notification is sent. *)
Lemma ensure_stopped_example :
  exists t2,
    stop_requests t2 = [] /\
    StopModelFunction.lambda_handler (stop_world (Ok ["STOPPED"])) stop_event
      stop_env []
    = match StopModelFunction.send_nuxeo_request (stop_world (Ok ["STOPPED"]))
              stop_event stop_vars t2 with
      | (Ok r, t') => (r, t')
      | (Raise e, t') => (StopModelFunction.handler_except e, t')
      end /\
    stop_requests
      (StopModelFunction.lambda_handler (stop_world (Ok ["STOPPED"]))
         stop_event stop_env []).2
    = stop_requests t2.
Proof.
  apply (ensure_stopped_then_notifies (stop_world (Ok ["STOPPED"])) stop_event
           stop_env [] stop_vars "v1").
  - vm_compute. reflexivity.
  - vm_compute. reflexivity.
Defined.

End ScenarioFacts.

(** ** Further properties of the batch consumer *)

Module ConsumerFacts.
Import AnalyseImageFunction Observations MoreObservations AnalyseImageFacts.

Lemma replace_has_no_plus s : has_plus (replace "+" " " s) = false.
Proof.
  induction s as [|c s IH]; [reflexivity|].
  cbn [replace has_plus]. rewrite IH, orb_false_r.
  destruct (Ascii.eqb c "+") eqn:Hc; [reflexivity|exact Hc].
Qed.

Lemma replace_length s : String.length (replace "+" " " s) = String.length s.
Proof. induction s as [|c s IH]; cbn; congruence. Qed.

Section PerMessage.

Context (w : World).
Context (nuxeo_url nuxeo_user nuxeo_password : option string).
Context (model_arn : string).

Local Abbreviation process_message :=
  (process_message w nuxeo_url nuxeo_user nuxeo_password model_arn).
Local Abbreviation process_batch :=
  (process_batch w nuxeo_url nuxeo_user nuxeo_password model_arn).

(** One iteration makes no call, or one detection call that raised, or one
    detection call that answered followed by one POST; the message is a
    success exactly when the POST answered with a status outside 400-599. *)
Theorem message_calls_at_most_once msg t o t' :
  process_message msg t = (o, t') ->
  (t' = t /\ exists why, o = Failure why) \/
  (exists bucket image e,
     t' = t ++ [EvDetect model_arn bucket image (Raise e)] /\
     o = Failure (except_clauses e)) \/
  (exists bucket image custom_labels payload r,
     t' = t ++ [EvDetect model_arn bucket image (Ok custom_labels);
                EvPost nuxeo_url payload headers
                  (nuxeo_user, nuxeo_password) 5 r] /\
     match r with
     | Raise e => o = Failure (except_clauses e)
     | Ok code =>
         if error_status code then o = Failure NuxeoAPIError
         else exists e, o = Success e /\ nuxeo_status e = code
     end).
Proof.
  rewrite process_message_eq. intros H.
  destruct (json_loads w (body msg)) as [msg_payload|].
  2:{ left. inversion H; subst. eauto. }
  destruct (extract_job msg_payload) as [[why|[[bucket image] doc_uid]]|].
  1,3: left; inversion H; subst; eauto.
  rewrite detect_and_publish_eq in H. cbn zeta in H.
  destruct (detect_custom_labels w t model_arn bucket image)
    as [custom_labels|e].
  - right. right. exists bucket, image, custom_labels.
    match type of H with
    | context [EvPost ?u ?p ?h ?a ?to ?r] => exists p, r
    end.
    destruct (requests_post w _ nuxeo_url _ headers _ 5) as [code|e].
    + unfold raise_for_status in H. unfold error_status.
      destruct ((400 <=? code) && (code <? 600))%Z;
        inversion H; subst; (split; [by rewrite <- app_assoc|]); eauto.
    + inversion H; subst. split; [by rewrite <- app_assoc|done].
  - right. left. exists bucket, image, e. by inversion H.
Qed.

(** What one iteration adds to the detection calls, the POSTs and the
    results. *)
Lemma process_message_counts msg t :
  let '(o, t') := process_message msg t in
  exists names values,
    detect_names t' = detect_names t ++ names /\
    post_values t' = post_values t ++ values /\
    length values <= length names <= 1 /\
    Forall (fun name => has_plus name = false) names /\
    match o with
    | Success e =>
        length values = 1 /\ error_status (nuxeo_status e) = false
    | Failure _ => True
    end.
Proof.
  rewrite (process_message_eq w nuxeo_url nuxeo_user nuxeo_password
             model_arn msg t).
  destruct (json_loads w (body msg)) as [msg_payload|].
  2:{ exists [], []. rewrite !app_nil_r. cbn. repeat split; auto. }
  destruct (extract_job msg_payload) as [[why|[[bucket image] doc_uid]]|]
    eqn:Hjob.
  1,3: exists [], []; rewrite !app_nil_r; cbn; repeat split; auto.
  apply extract_job_key in Hjob as (key & _ & ->).
  rewrite detect_and_publish_eq. cbn zeta.
  pose proof (replace_has_no_plus key) as Hplus.
  destruct (detect_custom_labels w t model_arn bucket _) as [custom_labels|e].
  - destruct (requests_post w _ nuxeo_url _ headers _ 5) as [code|e].
    + unfold raise_for_status, error_status.
      destruct ((400 <=? code) && (code <? 600))%Z eqn:Hcode;
        eexists [_], [_]; unfold detect_names, post_values;
        rewrite !omap_app; cbn; rewrite !app_nil_r, <- ?app_assoc;
        repeat split; auto.
    + eexists [_], [_]; unfold detect_names, post_values;
        rewrite !omap_app; cbn; rewrite !app_nil_r, <- ?app_assoc;
        repeat split; auto.
  - eexists [_], []; unfold detect_names, post_values;
      rewrite !omap_app; cbn; rewrite !app_nil_r;
      repeat split; auto.
Qed.

(** The same for the whole first loop. *)
Lemma process_batch_counts msgs :
  forall processed failed t,
    let '(processed', failed', t') := process_batch msgs processed failed t in
    exists names values new,
      detect_names t' = detect_names t ++ names /\
      post_values t' = post_values t ++ values /\
      processed' = processed ++ new /\
      length new <= length values <= length names /\
      length names <= length msgs /\
      Forall (fun name => has_plus name = false) names /\
      Forall (fun e => error_status (nuxeo_status e) = false) new.
Proof.
  induction msgs as [|msg rest IH]; intros processed failed t.
  - cbn. exists [], [], []. rewrite !app_nil_r. cbn. repeat split; auto.
  - cbn [AnalyseImageFunction.process_batch].
    pose proof (process_message_counts msg t) as Hm.
    destruct (process_message msg t) as [[e|why] t1];
      destruct Hm as (names1 & values1 & Hn1 & Hv1 & Hle1 & Hp1 & Ho1).
    + specialize (IH (processed ++ [e]) failed t1).
      destruct (process_batch rest (processed ++ [e]) failed t1)
        as [[processed' failed'] t'].
      destruct IH as (names & values & new & Hn & Hv & Hnew & Hle & Hlen
                      & Hp & Hs).
      destruct Ho1 as [Hone Hstatus].
      exists (names1 ++ names), (values1 ++ values), (e :: new).
      rewrite Hn, Hn1, Hv, Hv1, Hnew, <- !app_assoc, !length_app. cbn.
      repeat split; auto; try lia.
      * by apply Forall_app.
    + specialize (IH processed (failed ++ [msg]) t1).
      destruct (process_batch rest processed (failed ++ [msg]) t1)
        as [[processed' failed'] t'].
      destruct IH as (names & values & new & Hn & Hv & Hnew & Hle & Hlen
                      & Hp & Hs).
      exists (names1 ++ names), (values1 ++ values), new.
      rewrite Hn, Hn1, Hv, Hv1, Hnew, <- !app_assoc, !length_app. cbn.
      repeat split; auto; try lia.
      * by apply Forall_app.
Qed.

End PerMessage.

(** [v[key]] succeeds on a dict that has the key, and on nothing else. *)
Lemma getitem_Ok v key x :
  getitem v key = Ok x <-> exists d : gmap string json, v = JDict d /\ d !! key = Some x.
Proof.
  split.
  - destruct v as [| | | | | |d]; try discriminate. cbn.
    destruct (d !! key) as [y|] eqn:Hy; [|discriminate].
    intros H. inversion H; subst. by exists d.
  - intros (d & -> & H). cbn. by rewrite H.
Qed.

(** The payloads the consumer accepts: a dict whose ["Records"] is a list,
    whose first record carries, under ["s3"], a bucket name, an object key
    that is a [str] and a document uid, none of them falsy. Everything else
    is rejected or raises. *)
Theorem accepted_payloads msg_payload bucket image doc_uid :
  extract_job msg_payload = Ok (inr (bucket, image, doc_uid)) <->
  exists (d record s3 bucket_obj object document : gmap string json) rest key,
    msg_payload = JDict d /\
    d !! "Records" = Some (JList (JDict record :: rest)) /\
    record !! "s3" = Some (JDict s3) /\
    s3 !! "bucket" = Some (JDict bucket_obj) /\
    bucket_obj !! "name" = Some bucket /\
    s3 !! "object" = Some (JDict object) /\
    object !! "key" = Some (JStr key) /\
    s3 !! "documentUUID" = Some (JDict document) /\
    document !! "uid" = Some doc_uid /\
    image = replace "+" " " key /\
    truthy bucket = true /\ key <> "" /\ truthy doc_uid = true.
Proof.
  split.
  - unfold extract_job. intros H.
    destruct (contains "Records" msg_payload) as [[|]|]; try discriminate H.
    cbn [negb] in H.
    destruct (getitem msg_payload "Records") as [records|] eqn:Hrecords;
      [|discriminate H].
    apply getitem_Ok in Hrecords as (d & -> & Hd).
    destruct (getitem0 records) as [rec|] eqn:Hrec; [|discriminate H].
    destruct (getitem rec "s3") as [s3v|] eqn:Hs3; [|discriminate H].
    apply getitem_Ok in Hs3 as (record & -> & Hs3).
    destruct records as [| | | |[|c s']|[|r0 rest]|]; try discriminate Hrec.
    cbn in Hrec. inversion Hrec; subst r0; clear Hrec.
    destruct (getitem s3v "bucket") as [bv|] eqn:Hb; [|discriminate H].
    apply getitem_Ok in Hb as (s3 & -> & Hb).
    destruct (getitem bv "name") as [bucket'|] eqn:Hn; [|discriminate H].
    apply getitem_Ok in Hn as (bucket_obj & -> & Hn).
    cbn [getitem] in H.
    destruct (s3 !! "object") as [ov|] eqn:Ho; [|discriminate H].
    destruct (getitem ov "key") as [kv|] eqn:Hk; [|discriminate H].
    apply getitem_Ok in Hk as (object & -> & Hk).
    destruct kv as [| | | |key| |]; try discriminate H.
    cbn [replace_plus] in H.
    destruct (s3 !! "documentUUID") as [dv|] eqn:Hdoc; [|discriminate H].
    destruct (getitem dv "uid") as [uid|] eqn:Hu; [|discriminate H].
    apply getitem_Ok in Hu as (document & -> & Hu).
    destruct (truthy bucket') eqn:Htb; [|discriminate H].
    destruct (str_truthy (replace "+" " " key)) eqn:Hti; [|discriminate H].
    destruct (truthy uid) eqn:Htu; [|discriminate H].
    cbn in H. inversion H; subst.
    exists d, record, s3, bucket_obj, object, document, rest, key.
    repeat split; auto.
    intros ->. discriminate Hti.
  - intros (d & record & s3 & bucket_obj & object & document & rest & key
            & -> & Hd & Hs3 & Hb & Hn & Ho & Hk & Hdoc & Hu & -> & Htb & Hkey
            & Htu).
    unfold extract_job, contains, getitem, getitem0.
    rewrite Hd. rewrite bool_decide_eq_true_2 by eauto. cbn [negb].
    rewrite Hs3, Hb, Hn, Ho, Hk, Hdoc, Hu. cbn [replace_plus].
    rewrite Htb, Htu.
    assert (Hti : str_truthy (replace "+" " " key) = true).
    { destruct key; [done|reflexivity]. }
    by rewrite Hti.
Qed.

Section WholeHandler.

Context (w : World).

(** The second loop makes no detection call and no POST. *)
Lemma send_to_dlq_backend dlq failed :
  forall t,
    detect_names (send_to_dlq w dlq failed t).2 = detect_names t /\
    post_values (send_to_dlq w dlq failed t).2 = post_values t.
Proof.
  induction failed as [|m rest IH]; intros t; [done|].
  cbn. unfold call_send.
  assert (Hev : forall r,
             detect_names (t ++ [EvSend dlq (body m) r]) = detect_names t /\
             post_values (t ++ [EvSend dlq (body m) r]) = post_values t).
  { intros r. unfold detect_names, post_values. rewrite !omap_app. cbn.
    by rewrite !app_nil_r. }
  destruct (send_message w t dlq (body m)) as [u|e] eqn:Hs.
  - destruct (IH (t ++ [EvSend dlq (body m) (Ok u)])) as [H1 H2].
    rewrite H1, H2. apply Hev.
  - destruct e; try apply Hev.
    destruct (IH (t ++ [EvSend dlq (body m) (Raise ClientError)])) as [H1 H2].
    rewrite H1, H2. apply Hev.
Qed.

(** The runs of the handler: a configuration failure without any call, or
    the two loops one after the other. *)
Lemma lambda_handler_runs env event t :
  (lambda_handler w env event t).2 = t \/
  exists dlq arn,
    lambda_handler w env event t =
    match process_batch w (env !! "Nuxeo_Endpoint") (env !! "Nuxeo_User")
            (env !! "Nuxeo_Password") arn (Records event) [] [] t with
    | (processed_messages, failed_messages, t1) =>
        match send_to_dlq w dlq failed_messages t1 with
        | (Ok _, t2) =>
            (Ok (Report "200" (length processed_messages)
                   (length failed_messages) processed_messages), t2)
        | (Raise e, t2) => (Raise e, t2)
        end
    end.
Proof.
  destruct (opt_truthy (env !! "DLQ_URL")) eqn:Hdlq.
  2:{ left. by rewrite lambda_handler_no_dlq. }
  destruct (env !! "rekognition_model_project_version_arn") as [arn|] eqn:Harn.
  2:{ left. by rewrite lambda_handler_no_arn. }
  destruct (env !! "DLQ_URL") as [dlq|] eqn:Hurl; [|discriminate Hdlq].
  right. exists dlq, arn. by apply lambda_handler_configured.
Qed.

(** Whatever the invocation does, it makes at most one detection call per
    message of the batch and at most one POST per detection call, and every
    reported result stands for a POST of its own. *)
Theorem calls_are_bounded_by_the_batch env event r t' :
  lambda_handler w env event [] = (r, t') ->
  length (post_values t') <= length (detect_names t')
  /\ length (detect_names t') <= length (Records event)
  /\ forall status processed failed results,
       r = Ok (Report status processed failed results) ->
       processed <= length (post_values t').
Proof.
  intros H.
  destruct (opt_truthy (env !! "DLQ_URL")) eqn:Hdlq.
  2:{ rewrite lambda_handler_no_dlq in H by done. inversion H; subst. cbn.
      split; [lia|]. split; [lia|]. intros ???? Hr. discriminate Hr. }
  destruct (env !! "rekognition_model_project_version_arn") as [arn|] eqn:Harn.
  2:{ rewrite lambda_handler_no_arn in H by done. inversion H; subst. cbn.
      split; [lia|]. split; [lia|]. intros ???? Hr. discriminate Hr. }
  destruct (env !! "DLQ_URL") as [dlq|] eqn:Hurl; [|discriminate Hdlq].
  rewrite (lambda_handler_configured w env event dlq arn [] Hurl Hdlq Harn)
    in H.
  pose proof (process_batch_counts w (env !! "Nuxeo_Endpoint")
                (env !! "Nuxeo_User") (env !! "Nuxeo_Password") arn
                (Records event) [] [] []) as Hc.
  destruct (process_batch w _ _ _ arn (Records event) [] [] [])
    as [[pm fm] t1].
  destruct Hc as (names & values & new & Hn & Hv & Hnew & Hle & Hlen & _).
  pose proof (send_to_dlq_backend dlq fm t1) as [Hd Hp].
  assert (t' = (send_to_dlq w dlq fm t1).2) as ->.
  { destruct (send_to_dlq w dlq fm t1) as [[u|e] t2]; by inversion H. }
  rewrite Hd, Hp, Hn, Hv. cbn in *. subst pm.
  split; [lia|]. split; [lia|].
  intros status processed failed results ->.
  destruct (send_to_dlq w dlq fm t1) as [[u|e] t2]; [|discriminate H].
  inversion H; subst. lia.
Qed.

(** No detection call of an invocation names an image with a ['+']: an
    object whose key really has one cannot be addressed. *)
Theorem detection_names_have_no_plus env event r t' :
  lambda_handler w env event [] = (r, t') ->
  Forall (fun name => has_plus name = false) (detect_names t').
Proof.
  intros H.
  destruct (lambda_handler_runs env event []) as [Hnone|(dlq & arn & Hrun)].
  - rewrite H in Hnone. cbn in Hnone. subst t'. constructor.
  - rewrite Hrun in H.
    pose proof (process_batch_counts w (env !! "Nuxeo_Endpoint")
                  (env !! "Nuxeo_User") (env !! "Nuxeo_Password") arn
                  (Records event) [] [] []) as Hc.
    destruct (process_batch w _ _ _ arn (Records event) [] [] [])
      as [[pm fm] t1].
    destruct Hc as (names & values & new & Hn & _ & _ & _ & _ & Hplus & _).
    pose proof (send_to_dlq_backend dlq fm t1) as [Hd _].
    assert (t' = (send_to_dlq w dlq fm t1).2) as ->.
    { destruct (send_to_dlq w dlq fm t1) as [[u|e] t2]; by inversion H. }
    by rewrite Hd, Hn.
Qed.

(** Every result of a returned report carries a status for which
    [raise_for_status] does not raise: none is in 400-599. *)
Theorem reported_statuses_are_not_errors env event t status processed failed
    results t' :
  lambda_handler w env event t
  = (Ok (Report status processed failed results), t') ->
  Forall (fun e => error_status (nuxeo_status e) = false) results.
Proof.
  intros H.
  destruct (opt_truthy (env !! "DLQ_URL")) eqn:Hdlq.
  2:{ rewrite lambda_handler_no_dlq in H by done. discriminate H. }
  destruct (env !! "rekognition_model_project_version_arn") as [arn|] eqn:Harn.
  2:{ rewrite lambda_handler_no_arn in H by done. discriminate H. }
  destruct (env !! "DLQ_URL") as [dlq|] eqn:Hurl; [|discriminate Hdlq].
  rewrite (lambda_handler_configured w env event dlq arn t Hurl Hdlq Harn) in H.
  pose proof (process_batch_counts w (env !! "Nuxeo_Endpoint")
                (env !! "Nuxeo_User") (env !! "Nuxeo_Password") arn
                (Records event) [] [] t) as Hc.
  destruct (process_batch w _ _ _ arn (Records event) [] [] t)
    as [[pm fm] t1].
  destruct Hc as (names & values & new & _ & _ & Hnew & _ & _ & _ & Hs).
  destruct (send_to_dlq w dlq fm t1) as [[u|e] t2]; [|discriminate H].
  inversion H; subst. exact Hs.
Qed.

(** A message that does not decode into a job ends in the failed messages,
    whatever the exception or the rejected field. *)
Lemma process_batch_non_jobs url user password arn msgs :
  forall processed failed t,
    length failed + length (List.filter (fun m => negb (is_job w m)) msgs)
    <= length (process_batch w url user password arn msgs processed failed t).1.2.
Proof.
  induction msgs as [|m rest IH]; intros processed failed t.
  - cbn. lia.
  - cbn [AnalyseImageFunction.process_batch List.filter].
    rewrite (process_message_eq w url user password arn m t).
    assert (Hm : is_job w m
                 = match json_loads w (body m) with
                   | Ok msg_payload =>
                       match extract_job msg_payload with
                       | Ok (inr _) => true
                       | _ => false
                       end
                   | Raise _ => false
                   end) by reflexivity.
    rewrite Hm. clear Hm.
    destruct (json_loads w (body m)) as [msg_payload|].
    2:{ cbn [negb]. specialize (IH processed (failed ++ [m]) t).
        rewrite length_app in IH. cbn in *. lia. }
    destruct (extract_job msg_payload) as [[why|[[bucket image] doc_uid]]|].
    1,3: cbn [negb]; specialize (IH processed (failed ++ [m]) t);
         rewrite length_app in IH; cbn in *; lia.
    cbn [negb].
    destruct (detect_and_publish w url user password arn bucket image doc_uid t)
      as [[e|e] t1].
    + apply IH.
    + specialize (IH processed (failed ++ [m]) t1).
      rewrite length_app in IH. cbn in *. lia.
Qed.

(** With the dead-letter queue URL and the model ARN set, and provided every
    failure of a dead-letter send is a [ClientError], the handler returns its
    report for every batch, whatever happens to the messages: the two counts
    add up to the size of the batch, and every message that does not decode
    into a job is among the failed ones. When no message of the batch is a
    job the report is 0 processed and all failed. *)
Theorem report_survives_failing_messages env event t dlq arn :
  env !! "DLQ_URL" = Some dlq ->
  str_truthy dlq = true ->
  env !! "rekognition_model_project_version_arn" = Some arn ->
  dlq_raises_only_client_error w ->
  exists processed failed results t',
    lambda_handler w env event t
    = (Ok (Report "200" processed failed results), t') /\
    processed + failed = length (Records event) /\
    processed = length results /\
    length (List.filter (fun m => negb (is_job w m)) (Records event)) <= failed.
Proof.
  intros Hurl Htruthy Harn Hce.
  rewrite (lambda_handler_configured w env event dlq arn t Hurl Htruthy Harn).
  pose proof (process_batch_length w (env !! "Nuxeo_Endpoint")
                (env !! "Nuxeo_User") (env !! "Nuxeo_Password") arn
                (Records event) [] [] t) as Hlen.
  pose proof (process_batch_non_jobs (env !! "Nuxeo_Endpoint")
                (env !! "Nuxeo_User") (env !! "Nuxeo_Password") arn
                (Records event) [] [] t) as Hnon.
  destruct (process_batch w _ _ _ arn (Records event) [] [] t)
    as [[processed_messages failed_messages] t1].
  specialize (Hlen _ _ _ eq_refl). cbn in Hlen, Hnon.
  destruct (send_to_dlq_returns w dlq failed_messages Hce t1) as [t2 Hsend].
  rewrite Hsend. eexists _, _, _, _. split; [reflexivity|].
  split; [done|]. split; [done|exact Hnon].
Qed.

End WholeHandler.

End ConsumerFacts.

(** ** Further properties of the lifecycle handlers *)

Module MoreLifecycleFacts.
Import Observations MoreObservations.

(** [split] cuts at every separator: one more piece than separators. *)
Lemma split_length s : length (split "/" s) = S (count_slash s).
Proof.
  induction s as [|c s IH]; [reflexivity|].
  cbn [split count_slash]. destruct (Ascii.eqb c "/").
  - cbn. by rewrite IH.
  - destruct (split "/" s) as [|x xs]; [discriminate IH|]. cbn in *. lia.
Qed.

Lemma split_no_slash s : has_slash s = false -> split "/" s = [s].
Proof.
  induction s as [|c s IH]; [reflexivity|].
  cbn [has_slash split]. destruct (Ascii.eqb c "/"); [discriminate|].
  cbn. intros H. by rewrite (IH H).
Qed.

(** The first piece ends at the first separator. *)
Lemma split_app_slash s rest :
  has_slash s = false ->
  split "/" (s +:+ String "/" rest) = s :: split "/" rest.
Proof.
  induction s as [|c s IH]; [reflexivity|].
  cbn [has_slash]. destruct (Ascii.eqb c "/") eqn:Hc; [discriminate|].
  intros H.
  change (String c s +:+ String "/" rest)
    with (String c (s +:+ String "/" rest)).
  cbn [split]. by rewrite Hc, (IH H).
Qed.

Lemma split_lookup_None s n :
  split "/" s !! n = None <-> count_slash s < n.
Proof. rewrite lookup_ge_None, split_length. lia. Qed.

Section Start.
Import StartModelFunction.

Context (w : World).

(** The version name is the fourth ['/']-separated piece of the ARN,
    whatever follows it. *)
Theorem version_name_is_fourth_segment a b c name tail :
  has_slash a = false -> has_slash b = false -> has_slash c = false ->
  has_slash name = false ->
  get_project_version_name
    (a +:+ String "/" (b +:+ String "/" (c +:+ String "/" name)))
  = Ok name /\
  get_project_version_name
    (a +:+ String "/" (b +:+ String "/" (c +:+ String "/"
       (name +:+ String "/" tail))))
  = Ok name.
Proof.
  intros Ha Hb Hc Hn. unfold get_project_version_name.
  rewrite !split_app_slash by done. rewrite split_no_slash by done.
  done.
Qed.

(** Without one of its two settings the handler raises [KeyError] and calls
    nothing; an empty value counts as present. *)
Theorem start_needs_both_settings (env : environ) t :
  env !! "rekog_model_project_version_arn" = None \/
  env !! "rekog_model_project_arn" = None ->
  lambda_handler w env t = (Raise KeyError, t).
Proof.
  intros H. unfold lambda_handler, get_environment_variables, environ_getitem.
  destruct (env !! "rekog_model_project_version_arn") as [v|]; [|done].
  destruct H as [H|H]; [discriminate H|]. by rewrite H.
Qed.

(** A version ARN with fewer than three ['/'] is an [IndexError] before any
    call. *)
Theorem start_short_arn_is_an_index_error env t vars :
  get_environment_variables env = Ok vars ->
  count_slash (project_version_arn vars) < 3 ->
  lambda_handler w env t = (Raise IndexError, t).
Proof.
  intros Henv Hshort. unfold lambda_handler, get_project_version_name.
  rewrite Henv. apply split_lookup_None in Hshort. by rewrite Hshort.
Qed.

(** A describe call that raises, or that describes no version, is fatal:
    the handler raises and issues no start request. *)
Theorem describe_failure_is_fatal env t vars name :
  get_environment_variables env = Ok vars ->
  get_project_version_name (project_version_arn vars) = Ok name ->
  let d := describe_project_versions w t (project_arn vars) [name] in
  described_state d = None ->
  exists e,
    lambda_handler w env t
    = (Raise e, t ++ [EvDescribe (project_arn vars) [name] d]) /\
    (forall e', d = Raise e' -> e = e') /\
    (d = Ok [] -> e = IndexError) /\
    start_requests (lambda_handler w env t).2 = start_requests t.
Proof.
  intros Henv Hname d Hnone.
  unfold lambda_handler, describe_project_version.
  rewrite Henv, Hname. fold d.
  assert (Hreq : start_requests (t ++ [EvDescribe (project_arn vars) [name] d])
                 = start_requests t).
  { unfold start_requests. rewrite omap_app. cbn. by rewrite app_nil_r. }
  destruct d as [[|status rest]|e]; [|discriminate Hnone|].
  - exists IndexError. cbn. repeat split; auto. intros e' He. discriminate He.
  - exists e. cbn. repeat split; auto.
    + intros e' He. by inversion He.
    + intros He. discriminate He.
Qed.

End Start.

Section Stop.
Import StopModelFunction.

Context (w : World).

Lemma get_environment_variable_Ok env key v :
  get_environment_variable env key = Ok v ->
  opt_truthy (env !! key) = true.
Proof.
  unfold get_environment_variable.
  destruct (env !! key) as [x|]; [|discriminate]. cbn.
  by destruct (str_truthy x).
Qed.

Lemma get_environment_variable_Raise env key e :
  get_environment_variable env key = Raise e ->
  opt_truthy (env !! key) = false /\
  e = EnvironmentError (key +:+ " environment variable not set").
Proof.
  unfold get_environment_variable.
  destruct (env !! key) as [x|]; cbn.
  - destruct (str_truthy x); [discriminate|]. intros H. by inversion H.
  - intros H. by inversion H.
Qed.

(** When one of the five settings is absent or empty, the handler answers
    500 with the text naming the first such setting, in the order the code
    reads them, and calls nothing: no describe, no stop, no notification. *)
Theorem stop_reports_the_missing_setting ev env t key :
  key ∈ stop_settings ->
  opt_truthy (env !! key) = false ->
  exists pre missing post,
    stop_settings = pre ++ missing :: post /\
    Forall (fun k => opt_truthy (env !! k) = true) pre /\
    opt_truthy (env !! missing) = false /\
    lambda_handler w ev env t
    = ({| statusCode := 500;
          body := Some (missing +:+ " environment variable not set") |}, t).
Proof.
  intros Hin Hkey.
  unfold lambda_handler, handler_try, get_environment_variables.
  destruct (get_environment_variable env "rekog_model_project_version_arn")
    as [v1|e1] eqn:H1.
  2:{ apply get_environment_variable_Raise in H1 as [H1 ->].
      exists [], "rekog_model_project_version_arn". eexists.
      split; [reflexivity|]. by repeat split. }
  apply get_environment_variable_Ok in H1.
  destruct (get_environment_variable env "rekog_model_project_arn")
    as [v2|e2] eqn:H2.
  2:{ apply get_environment_variable_Raise in H2 as [H2 ->].
      exists ["rekog_model_project_version_arn"], "rekog_model_project_arn".
      eexists. split; [reflexivity|]. repeat split; auto. }
  apply get_environment_variable_Ok in H2.
  destruct (get_environment_variable env "Nuxeo_Endpoint") as [v3|e3] eqn:H3.
  2:{ apply get_environment_variable_Raise in H3 as [H3 ->].
      exists ["rekog_model_project_version_arn"; "rekog_model_project_arn"],
        "Nuxeo_Endpoint".
      eexists. split; [reflexivity|]. repeat split; auto. }
  apply get_environment_variable_Ok in H3.
  destruct (get_environment_variable env "Nuxeo_UserName") as [v4|e4] eqn:H4.
  2:{ apply get_environment_variable_Raise in H4 as [H4 ->].
      exists ["rekog_model_project_version_arn"; "rekog_model_project_arn";
              "Nuxeo_Endpoint"], "Nuxeo_UserName".
      eexists. split; [reflexivity|]. repeat split; auto. }
  apply get_environment_variable_Ok in H4.
  destruct (get_environment_variable env "Nuxeo_Password") as [v5|e5] eqn:H5.
  2:{ apply get_environment_variable_Raise in H5 as [H5 ->].
      exists ["rekog_model_project_version_arn"; "rekog_model_project_arn";
              "Nuxeo_Endpoint"; "Nuxeo_UserName"], "Nuxeo_Password".
      eexists. split; [reflexivity|]. repeat split; auto. }
  apply get_environment_variable_Ok in H5.
  exfalso. unfold stop_settings in Hin.
  repeat (apply elem_of_cons in Hin as [->|Hin]; [congruence|]).
  by apply elem_of_nil in Hin.
Qed.

(** With the settings present, a version ARN with fewer than three ['/']
    gives 500 with the generic text, and nothing is called. *)
Theorem stop_short_arn_is_unexpected ev env t vars :
  get_environment_variables env = Ok vars ->
  count_slash (project_version_arn vars) < 3 ->
  lambda_handler w ev env t
  = ({| statusCode := 500; body := Some "An unexpected error occurred." |}, t).
Proof.
  intros Henv Hshort. unfold lambda_handler, handler_try.
  rewrite Henv. apply split_lookup_None in Hshort. by rewrite Hshort.
Qed.

(** The notification step sends one POST, to the configured endpoint with
    the configured credentials and addressed to the user's e-mail, exactly
    when the event carries a truthy [userEmail]; otherwise it answers 400
    and sends nothing. *)
Theorem notification_needs_an_email (ev : gmap string json) vars t :
  let run := send_nuxeo_request w ev vars t in
  match ev !! "userEmail" with
  | Some user_email =>
      if truthy user_email
      then notifications run.2
           = notifications t
             ++ [(nuxeo_endpoint vars, (nuxeo_username vars, nuxeo_password vars),
                  {| from := "no-reply@maildrop.cc"; to := user_email;
                     HTML := true; input := ev !! "collectionId" |})]
      else run = (Ok {| statusCode := 400;
                        body := Some "User email is required to send Nuxeo request." |},
                  t)
  | None => run = (Ok {| statusCode := 400;
                         body := Some "User email is required to send Nuxeo request." |},
                   t)
  end.
Proof.
  unfold send_nuxeo_request.
  destruct (ev !! "userEmail") as [user_email|]; [|reflexivity].
  destruct (truthy user_email); [|reflexivity].
  cbn [negb].
  assert (Hpost : forall u h p a to r,
             notifications (t ++ [EvPost u h p a to r])
             = notifications t ++ [(u, a, p)]).
  { intros. unfold notifications. by rewrite omap_app. }
  destruct (requests_post w t _ _ _ _ _) as [status_code|e].
  - destruct (raise_for_status status_code); [|apply Hpost].
    destruct (_ && _); apply Hpost.
  - destruct e; apply Hpost.
Qed.

(** What the notification step can answer. *)
Lemma send_nuxeo_request_status ev vars t r :
  (send_nuxeo_request w ev vars t).1 = Ok r ->
  (body r = None /\ (200 <= statusCode r < 300)%Z) \/
  (body r <> None /\ (statusCode r = 400%Z \/ statusCode r = 500%Z)).
Proof.
  unfold send_nuxeo_request.
  destruct (ev !! "userEmail") as [user_email|].
  2:{ intros H. inversion H; subst. right. cbn. split; [done|by left]. }
  destruct (negb (truthy user_email)).
  { intros H. inversion H; subst. right. cbn. split; [done|by left]. }
  destruct (requests_post w t _ _ _ _ _) as [status_code|e].
  - destruct (raise_for_status status_code).
    + destruct ((200 <=? status_code) && (status_code <? 300))%Z eqn:Hc;
        intros H; inversion H; subst; cbn.
      * left. split; [done|lia].
      * right. split; [done|by right].
    + intros H; inversion H; subst; cbn. right. split; [done|by right].
  - destruct e; intros H; inversion H; subst; cbn; right;
      (split; [done|by right]).
Qed.

(** The handler always answers with a status code: a 2xx code of the
    document store without a body, or 400 or 500 with an error text. It
    never raises. *)
Theorem stop_handler_status_codes ev env t :
  let r := (lambda_handler w ev env t).1 in
  (body r = None /\ (200 <= statusCode r < 300)%Z) \/
  (body r <> None /\ (statusCode r = 400%Z \/ statusCode r = 500%Z)).
Proof.
  cbn zeta. unfold lambda_handler.
  assert (Hexc : forall e,
             body (handler_except e) <> None /\
             (statusCode (handler_except e) = 400%Z \/
              statusCode (handler_except e) = 500%Z)).
  { intros e. destruct e; cbn; split; try done; by right. }
  destruct (handler_try w ev env t) as [[r|e] t'] eqn:Htry; cbn.
  2:{ right. apply Hexc. }
  unfold handler_try in Htry.
  destruct (get_environment_variables env) as [vars|]; [|discriminate Htry].
  destruct (split "/" (project_version_arn vars) !! 3) as [name|];
    [|discriminate Htry].
  destruct (check_model_running_status w _ name t) as [[status|] t1].
  - destruct (str_truthy status).
    + eapply send_nuxeo_request_status. by rewrite Htry.
    + eapply send_nuxeo_request_status. by rewrite Htry.
  - eapply send_nuxeo_request_status. by rewrite Htry.
Qed.

End Stop.

End MoreLifecycleFacts.

(** ** Properties of the queue seeding *)

Module FetchFacts.
Import fetchObjectsAndCreateSQSMessages Observations MoreObservations.

Lemma fetch_variable_Ok env key v :
  get_environment_variable env key = Ok v ->
  opt_truthy (env !! key) = true.
Proof.
  unfold get_environment_variable.
  destruct (env !! key) as [x|]; [|discriminate]. cbn.
  by destruct (str_truthy x).
Qed.

Lemma fetch_variable_Raise env key e :
  get_environment_variable env key = Raise e ->
  opt_truthy (env !! key) = false /\
  e = EnvironmentError (key +:+ " environment variable not set").
Proof.
  unfold get_environment_variable.
  destruct (env !! key) as [x|]; cbn.
  - destruct (str_truthy x); [discriminate|]. intros H. by inversion H.
  - intros H. by inversion H.
Qed.

(** The inner loop passes over views that are dicts with another title. *)
Lemma find_full_hd_skips pre rest :
  Forall (fun v => other_view v = true) pre ->
  find_full_hd (pre ++ rest) = find_full_hd rest.
Proof.
  induction 1 as [|v pre Hv _ IH]; [reflexivity|].
  cbn [app find_full_hd]. unfold other_view in Hv.
  destruct v as [| | | | | |vd]; try discriminate Hv. cbn [get].
  destruct (vd !! "title") as [title|].
  - apply negb_true_iff in Hv. by rewrite Hv.
  - exact IH.
Qed.

Section Documents.

Context (w : World).

(** What one document adds to the queue: nothing, or one message to the
    given queue, whose key is made of a digest other than ["unknown"] and
    whose uid is the document's. *)
Lemma process_document_sends q document digest t r t' :
  process_document w q document digest t = (r, t') ->
  exists sent,
    queue_sends t' = queue_sends t ++ sent /\
    length sent <= 1 /\
    Forall (fun ub =>
              ub.1 = q /\
              exists found uid,
                get document "uid" JNull = Ok uid /\
                eq_str found "unknown" = false /\
                ub.2 = json_dumps w
                         (sqs_payload ("nike-binary/" +:+ format w found) uid))
      sent.
Proof.
  unfold process_document. intros H.
  assert (Hnone : t' = t ->
            exists sent, queue_sends t' = queue_sends t ++ sent /\
              length sent <= 1 /\
              Forall (fun ub =>
                ub.1 = q /\
                exists found uid,
                  get document "uid" JNull = Ok uid /\
                  eq_str found "unknown" = false /\
                  ub.2 = json_dumps w
                           (sqs_payload ("nike-binary/" +:+ format w found) uid))
                sent).
  { intros ->. exists []. rewrite app_nil_r. cbn. repeat split; auto. }
  destruct (select_digest document digest) as [digest'|];
    [|apply Hnone; by inversion H].
  destruct (get document "uid" JNull) as [uid|] eqn:Huid;
    [|apply Hnone; by inversion H].
  destruct digest' as [found|]; [|apply Hnone; by inversion H].
  destruct (eq_str found "unknown") eqn:Hunknown;
    [apply Hnone; by inversion H|].
  inversion H; subst; clear H Hnone.
  eexists [_]. unfold queue_sends. rewrite omap_app. cbn.
  split; [reflexivity|]. split; [lia|].
  constructor; [|constructor]. cbn. split; [done|]. by exists found, uid.
Qed.

(** Every message the loop enqueues goes to the given queue and carries the
    payload of one of the documents: its uid and a key made of a digest that
    is not ["unknown"]. There is at most one message per document. *)
Theorem enqueued_messages_are_well_formed q documents :
  forall digest t r t',
    process_documents_from w q documents digest t = (r, t') ->
    exists sent,
      queue_sends t' = queue_sends t ++ sent /\
      length sent <= length documents /\
      Forall (fun ub =>
                ub.1 = q /\
                exists document found uid,
                  document ∈ documents /\
                  get document "uid" JNull = Ok uid /\
                  eq_str found "unknown" = false /\
                  ub.2 = json_dumps w
                           (sqs_payload ("nike-binary/" +:+ format w found) uid))
        sent.
Proof.
  induction documents as [|document rest IH]; intros digest t r t' H.
  - cbn in H. inversion H; subst. exists []. rewrite app_nil_r. cbn.
    repeat split; auto.
  - cbn in H.
    destruct (process_document w q document digest t) as [rd t1] eqn:Hdoc.
    apply process_document_sends in Hdoc as (sent1 & Hs1 & Hl1 & Hf1).
    assert (Hf1' : Forall (fun ub =>
                ub.1 = q /\
                exists doc found uid,
                  doc ∈ document :: rest /\
                  get doc "uid" JNull = Ok uid /\
                  eq_str found "unknown" = false /\
                  ub.2 = json_dumps w
                           (sqs_payload ("nike-binary/" +:+ format w found) uid))
              sent1).
    { eapply Forall_impl; [exact Hf1|].
      intros ub (Hq & found & uid & Hu & Hn & Hb). split; [done|].
      exists document, found, uid. repeat split; auto. apply list_elem_of_here. }
    destruct rd as [digest'|e].
    + apply IH in H as (sent & Hs & Hl & Hf).
      exists (sent1 ++ sent). rewrite Hs, Hs1, <- app_assoc, length_app. cbn.
      split; [done|]. split; [lia|].
      apply Forall_app. split; [done|].
      eapply Forall_impl; [exact Hf|].
      intros ub (Hq & doc & found & uid & Hin & Hu & Hn & Hb). split; [done|].
      exists doc, found, uid. repeat split; auto.
      by apply list_elem_of_further.
    + inversion H; subst. exists sent1. cbn. split; [done|]. split; [lia|done].
Qed.

(** A document whose views are dicts none of which is titled ["FullHD"]
    assigns no digest: the digest of the previous document is used again.
    With a digest left by an earlier document, the document is enqueued under
    that digest with its own uid (or skipped when that digest is
    ["unknown"]); with no digest bound yet, the loop raises. *)
Theorem digest_of_previous_document_is_reused q (d properties : gmap string json)
    views digest t :
  d !! "properties" = Some (JDict properties) ->
  properties !! "picture:views" = Some (JList views) ->
  views <> [] ->
  Forall (fun v => other_view v = true) views ->
  process_document w q (JDict d) digest t =
  match digest with
  | None => (Raise OtherException, t)
  | Some found =>
      if eq_str found "unknown" then (Ok (Some found), t)
      else
        let uid := default JNull (d !! "uid") in
        let message_body :=
          json_dumps w (sqs_payload ("nike-binary/" +:+ format w found) uid) in
        (Ok (Some found),
         t ++ [EvSend q message_body (send_message w t q message_body)])
  end.
Proof.
  intros Hp Hv Hne Hother.
  unfold process_document, select_digest. cbn [get].
  rewrite Hp. cbn [get]. rewrite Hv.
  assert (Htruthy : truthy (JList views) = true) by (by destruct views).
  rewrite Htruthy. cbn [iterate].
  rewrite <- (app_nil_r views), (find_full_hd_skips views [] Hother).
  cbn [find_full_hd].
  destruct (d !! "uid") as [uid|]; destruct digest as [found|]; reflexivity.
Qed.

(** The first view titled ["FullHD"] decides the digest: the views after
    it, the file digest of the document and the digest of the previous
    document play no part. *)
Theorem first_full_hd_view_wins (d properties view content : gmap string json)
    pre post digest :
  d !! "properties" = Some (JDict properties) ->
  properties !! "picture:views" = Some (JList (pre ++ JDict view :: post)) ->
  Forall (fun v => other_view v = true) pre ->
  view !! "title" = Some (JStr "FullHD") ->
  get (JDict view) "content" (JDict ∅) = Ok (JDict content) ->
  select_digest (JDict d) digest
  = Ok (Some (default (JStr "unknown") (content !! "digest"))).
Proof.
  intros Hp Hv Hpre Htitle Hcontent.
  unfold select_digest. cbn [get]. rewrite Hp. cbn [get]. rewrite Hv.
  assert (Htruthy : truthy (JList (pre ++ JDict view :: post)) = true)
    by (by destruct pre).
  rewrite Htruthy. cbn [iterate].
  rewrite (find_full_hd_skips pre _ Hpre). cbn [find_full_hd].
  cbn [get] in *. rewrite Htitle. cbn [eq_str].
  rewrite Hcontent. cbn [String.eqb Ascii.eqb Bool.eqb get].
  by destruct (content !! "digest").
Qed.

End Documents.

Section Handler.

Context (w : World).

(** When one of the four settings is absent or empty, the handler answers
    500 with the text naming the first such setting, in the order the code
    reads them, and neither asks the document store nor enqueues
    anything. *)
Theorem fetch_reports_the_missing_setting ev env t key :
  key ∈ fetch_settings ->
  opt_truthy (env !! key) = false ->
  exists pre missing post,
    fetch_settings = pre ++ missing :: post /\
    Forall (fun k => opt_truthy (env !! k) = true) pre /\
    opt_truthy (env !! missing) = false /\
    lambda_handler w ev env t
    = ({| statusCode := 500;
          body := Error (missing +:+ " environment variable not set") |}, t).
Proof.
  intros Hin Hkey.
  unfold lambda_handler, handler_try.
  destruct (get_environment_variable env "Nuxeo_Endpoint") as [v1|e1] eqn:H1.
  2:{ apply fetch_variable_Raise in H1 as [H1 ->].
      exists [], "Nuxeo_Endpoint". eexists.
      split; [reflexivity|]. by repeat split. }
  apply fetch_variable_Ok in H1.
  destruct (get_environment_variable env "Nuxeo_UserName") as [v2|e2] eqn:H2.
  2:{ apply fetch_variable_Raise in H2 as [H2 ->].
      exists ["Nuxeo_Endpoint"], "Nuxeo_UserName".
      eexists. split; [reflexivity|]. repeat split; auto. }
  apply fetch_variable_Ok in H2.
  destruct (get_environment_variable env "Nuxeo_Password") as [v3|e3] eqn:H3.
  2:{ apply fetch_variable_Raise in H3 as [H3 ->].
      exists ["Nuxeo_Endpoint"; "Nuxeo_UserName"], "Nuxeo_Password".
      eexists. split; [reflexivity|]. repeat split; auto. }
  apply fetch_variable_Ok in H3.
  destruct (get_environment_variable env "SQS_QUEUE_URL") as [v4|e4] eqn:H4.
  2:{ apply fetch_variable_Raise in H4 as [H4 ->].
      exists ["Nuxeo_Endpoint"; "Nuxeo_UserName"; "Nuxeo_Password"],
        "SQS_QUEUE_URL".
      eexists. split; [reflexivity|]. repeat split; auto. }
  apply fetch_variable_Ok in H4.
  exfalso. unfold fetch_settings in Hin.
  repeat (apply elem_of_cons in Hin as [->|Hin]; [congruence|]).
  by apply elem_of_nil in Hin.
Qed.

(** The handler enqueues a message only when its four settings and the
    [collectionId] of the event are present, and after the document store
    answered the one request with a status outside 400-599 and a JSON dict
    whose ["entries"] is truthy. *)
Theorem nothing_is_enqueued_without_entries ev env t r t' :
  lambda_handler w ev env t = (r, t') ->
  queue_sends t' <> queue_sends t ->
  exists url username password queue_url collection_id response
         (data : gmap string json) documents,
    get_environment_variable env "Nuxeo_Endpoint" = Ok url /\
    get_environment_variable env "Nuxeo_UserName" = Ok username /\
    get_environment_variable env "Nuxeo_Password" = Ok password /\
    get_environment_variable env "SQS_QUEUE_URL" = Ok queue_url /\
    ev !! "collectionId" = Some collection_id /\
    requests_post w t url headers {| input := collection_id |}
      (username, password) 5 = Ok response /\
    error_status (status_code response) = false /\
    json_body response = Ok (JDict data) /\
    data !! "entries" = Some documents /\
    truthy documents = true.
Proof.
  unfold lambda_handler, handler_try, make_nuxeo_request. intros H Hsent.
  assert (Hpost : forall u h p a to x,
             queue_sends (t ++ [EvPost u h p a to x]) = queue_sends t).
  { intros. unfold queue_sends. rewrite omap_app. cbn. by rewrite app_nil_r. }
  destruct (get_environment_variable env "Nuxeo_Endpoint") as [url|];
    [|inversion H; subst; done].
  destruct (get_environment_variable env "Nuxeo_UserName") as [username|];
    [|inversion H; subst; done].
  destruct (get_environment_variable env "Nuxeo_Password") as [password|];
    [|inversion H; subst; done].
  destruct (get_environment_variable env "SQS_QUEUE_URL") as [queue_url|];
    [|inversion H; subst; done].
  destruct (ev !! "collectionId") as [collection_id|];
    [|inversion H; subst; done].
  destruct (requests_post w t url headers _ _ 5) as [response|] eqn:Hreq.
  2:{ inversion H; subst. by rewrite Hpost in Hsent. }
  unfold raise_for_status in H. unfold error_status.
  destruct ((400 <=? status_code response) && (status_code response <? 600))%Z
    eqn:Hcode.
  { inversion H; subst. by rewrite Hpost in Hsent. }
  destruct (json_body response) as [data|] eqn:Hbody.
  2:{ inversion H; subst. by rewrite Hpost in Hsent. }
  destruct data as [| | | | | |data];
    try (cbn in H; inversion H; subst; by rewrite Hpost in Hsent).
  cbn [get] in H.
  destruct (data !! "entries") as [documents|] eqn:Hentries.
  2:{ cbn in H. inversion H; subst. by rewrite Hpost in Hsent. }
  destruct (truthy documents) eqn:Htruthy.
  2:{ cbn in H. inversion H; subst. by rewrite Hpost in Hsent. }
  by exists url, username, password, queue_url, collection_id, response, data,
    documents.
Qed.

End Handler.

(** Whether the queue accepted a message has no influence on the documents
    that follow. *)
Lemma process_documents_from_queue_blind w1 w2 q documents :
  json_dumps w1 = json_dumps w2 ->
  repr w1 = repr w2 ->
  forall digest t1 t2,
    (process_documents_from w1 q documents digest t1).1
    = (process_documents_from w2 q documents digest t2).1 /\
    exists sent,
      queue_sends (process_documents_from w1 q documents digest t1).2
      = queue_sends t1 ++ sent /\
      queue_sends (process_documents_from w2 q documents digest t2).2
      = queue_sends t2 ++ sent.
Proof.
  intros Hd Hr.
  induction documents as [|document rest IH]; intros digest t1 t2.
  - cbn. split; [done|]. exists []. by rewrite !app_nil_r.
  - cbn [process_documents_from]. unfold process_document, format.
    rewrite Hd, Hr.
    destruct (select_digest document digest) as [digest'|];
      [|cbn; split; [done|]; exists []; by rewrite !app_nil_r].
    destruct (get document "uid" JNull) as [uid|];
      [|cbn; split; [done|]; exists []; by rewrite !app_nil_r].
    destruct digest' as [found|];
      [|cbn; split; [done|]; exists []; by rewrite !app_nil_r].
    destruct (eq_str found "unknown"); [apply IH|].
    match goal with
    | |- context [EvSend ?u ?b (send_message w1 t1 ?u ?b)] =>
        destruct (IH (Some found)
                    (t1 ++ [EvSend u b (send_message w1 t1 u b)])
                    (t2 ++ [EvSend u b (send_message w2 t2 u b)]))
          as (Hres & sent & Hs1 & Hs2);
        split; [exact Hres|]; exists ((u, b) :: sent)
    end.
    rewrite Hs1, Hs2. unfold queue_sends. rewrite !omap_app. cbn.
    by rewrite <- !app_assoc.
Qed.

(** Failures of the queue are dropped: two worlds that differ only in what
    [send_message] answers give the same response and attempt the same
    messages. In particular the handler answers 200 "Messages sent to SQS
    successfully." even when the queue refused every message. *)
Theorem queue_failures_are_not_reported w1 w2 ev env t :
  requests_post w1 = requests_post w2 ->
  json_dumps w1 = json_dumps w2 ->
  repr w1 = repr w2 ->
  (lambda_handler w1 ev env t).1 = (lambda_handler w2 ev env t).1 /\
  queue_sends (lambda_handler w1 ev env t).2
  = queue_sends (lambda_handler w2 ev env t).2.
Proof.
  intros Hp Hd Hr.
  unfold lambda_handler, handler_try, make_nuxeo_request. rewrite Hp.
  destruct (get_environment_variable env "Nuxeo_Endpoint") as [url|]; [|done].
  destruct (get_environment_variable env "Nuxeo_UserName") as [username|];
    [|done].
  destruct (get_environment_variable env "Nuxeo_Password") as [password|];
    [|done].
  destruct (get_environment_variable env "SQS_QUEUE_URL") as [queue_url|];
    [|done].
  destruct (ev !! "collectionId") as [collection_id|]; [|done].
  destruct (requests_post w2 t url headers _ _ 5) as [response|]; [|done].
  destruct (raise_for_status (status_code response)); [|done].
  destruct (json_body response) as [data|]; [|done].
  destruct (get data "entries" (JList [])) as [documents|]; [|done].
  destruct (negb (truthy documents)); [done|].
  unfold process_documents.
  destruct (iterate documents) as [items|]; [|done].
  match goal with
  | |- context [process_documents_from w1 ?q ?items ?dg ?t0] =>
      destruct (process_documents_from_queue_blind w1 w2 q items Hd Hr dg t0 t0)
        as (Hres & sent & Hs1 & Hs2);
      destruct (process_documents_from w1 q items dg t0) as [[u1|e1] t1'];
      destruct (process_documents_from w2 q items dg t0) as [[u2|e2] t2']
  end; cbn in *; try discriminate Hres.
  - split; [done|]. by rewrite Hs1, Hs2.
  - inversion Hres; subst. split; [done|]. by rewrite Hs1, Hs2.
Qed.

(** Producer and consumer: the payload the seeding builds for a key
    ["nike-binary/..."] and a uid is accepted by the batch consumer exactly
    when the uid is truthy; the consumer then detects in the bucket
    ["******"] under the key with every ['+'] turned into a space. A
    document without uid is enqueued all the same and always ends in the
    consumer's failed messages. *)
Theorem seeded_payload_meets_the_consumer digest uid :
  AnalyseImageFunction.extract_job (sqs_payload ("nike-binary/" +:+ digest) uid)
  = if truthy uid
    then Ok (inr (JStr "******",
                  replace "+" " " ("nike-binary/" +:+ digest), uid))
    else Ok (inl AnalyseImageFunction.MissingFields).
Proof.
  unfold AnalyseImageFunction.extract_job, sqs_payload, contains, getitem,
    getitem0.
  rewrite bool_decide_eq_true_2 by (rewrite lookup_singleton_eq; eauto).
  cbn [negb].
  repeat (progress
            (rewrite ?lookup_singleton_eq, ?lookup_insert_eq;
             try rewrite lookup_insert_ne by done;
             cbv beta iota)).
  cbn [replace_plus]. cbv beta iota.
  repeat (progress
            (rewrite ?lookup_singleton_eq, ?lookup_insert_eq;
             try rewrite lookup_insert_ne by done;
             cbv beta iota)).
  change (truthy (JStr "******")) with true.
  change (str_truthy (replace "+" " " ("nike-binary/" +:+ digest))) with true.
  cbn [andb]. by destruct (truthy uid).
Qed.

End FetchFacts.

(** ** The further properties at work on the concrete worlds *)

Module MoreScenarioFacts.
Import Observations MoreObservations Scenarios MoreScenarios.
Import ConsumerFacts MoreLifecycleFacts FetchFacts.

Section Consumer.
Import AnalyseImageFunction.

Lemma message_calls_example :
  exists bucket image custom_labels payload r,
    (process_message demo_world (Some "https://nuxeo/api") (Some "svc")
       (Some "secret") "arn:model/v1" msg_foo []).2
    = [EvDetect "arn:model/v1" bucket image (Ok custom_labels);
       EvPost (Some "https://nuxeo/api") payload headers
         (Some "svc", Some "secret") 5 r].
Proof.
  destruct (message_calls_at_most_once demo_world (Some "https://nuxeo/api")
              (Some "svc") (Some "secret") "arn:model/v1" msg_foo []
              (process_message demo_world (Some "https://nuxeo/api")
                 (Some "svc") (Some "secret") "arn:model/v1" msg_foo []).1
              (process_message demo_world (Some "https://nuxeo/api")
                 (Some "svc") (Some "secret") "arn:model/v1" msg_foo []).2)
    as [[Hsame _]|[(b & i & e & Hraise & _)|(b & i & ls & p & r & Hcalls & _)]].
  - vm_compute. reflexivity.
  - vm_compute in Hsame. discriminate Hsame.
  - vm_compute in Hraise. discriminate Hraise.
  - by exists b, i, ls, p, r.
Defined.

Lemma accepted_payload_example :
  extract_job (payload_of [s3_record "b1" "foo+bar.jpg" "doc-1"])
  = Ok (inr (JStr "b1", "foo bar.jpg", JStr "doc-1")).
Proof.
  apply accepted_payloads.
  eexists _, _, _, _, _, _, _, "foo+bar.jpg".
  split; [reflexivity|].
  repeat split; try (vm_compute; reflexivity).
  discriminate.
Defined.

Lemma calls_are_bounded_example :
  length (post_values demo_run.2) <= length (detect_names demo_run.2)
  /\ length (detect_names demo_run.2) <= length (Records demo_batch)
  /\ forall status processed failed results,
       demo_run.1 = Ok (Report status processed failed results) ->
       processed <= length (post_values demo_run.2).
Proof.
  apply (calls_are_bounded_by_the_batch demo_world full_env demo_batch).
  vm_compute. reflexivity.
Defined.

Lemma detection_names_example :
  Forall (fun name => has_plus name = false) (detect_names demo_run.2).
Proof.
  apply (detection_names_have_no_plus demo_world full_env demo_batch demo_run.1).
  vm_compute. reflexivity.
Defined.

(** Two messages that are not JSON: the report says 0 processed and 2
    failed, and both bodies went to the dead-letter queue. *)
Lemma report_survives_example :
  lambda_handler demo_world full_env bad_batch []
  = (Ok (Report "200" 0 2 []),
     [EvSend "https://sqs/dlq" "not+json {" (Ok tt);
      EvSend "https://sqs/dlq" "not+json {" (Ok tt)]) /\
  exists processed failed results t',
    lambda_handler demo_world full_env bad_batch []
    = (Ok (Report "200" processed failed results), t') /\
    processed + failed = length (Records bad_batch) /\
    processed = length results /\
    length (List.filter (fun m => negb (is_job demo_world m))
              (Records bad_batch)) <= failed.
Proof.
  split; [vm_compute; reflexivity|].
  apply (report_survives_failing_messages demo_world full_env bad_batch []
           "https://sqs/dlq" "arn:model/v1").
  - vm_compute. reflexivity.
  - vm_compute. reflexivity.
  - vm_compute. reflexivity.
  - intros t url b e H. discriminate H.
Defined.

Lemma reported_statuses_example :
  exists results,
    demo_run.1 = Ok (Report "200" 3 1 results) /\
    Forall (fun e => error_status (nuxeo_status e) = false) results.
Proof.
  eexists. split; [vm_compute; reflexivity|].
  eapply (reported_statuses_are_not_errors demo_world full_env demo_batch []
            "200" 3 1).
  vm_compute. reflexivity.
Defined.

End Consumer.

Section Lifecycle.

Lemma version_name_example :
  StartModelFunction.get_project_version_name
    "arn:aws:rekognition:r:1:project/p/version/v1/17" = Ok "v1".
Proof.
  apply (proj2 (version_name_is_fourth_segment
                  "arn:aws:rekognition:r:1:project" "p" "version" "v1" "17"
                  eq_refl eq_refl eq_refl eq_refl)).
Defined.

Lemma start_needs_both_settings_example :
  StartModelFunction.lambda_handler (start_world "STOPPED")
    {[ "rekog_model_project_version_arn" := "arn:model/p/version/v1/1" ]} []
  = (Raise KeyError, []).
Proof.
  apply start_needs_both_settings. right. vm_compute. reflexivity.
Defined.

Lemma start_short_arn_example :
  StartModelFunction.lambda_handler (start_world "STOPPED")
    start_env_short_arn []
  = (Raise IndexError, []).
Proof.
  apply (start_short_arn_is_an_index_error (start_world "STOPPED")
           start_env_short_arn []
           {| StartModelFunction.project_version_arn := "arn:model/v1";
              StartModelFunction.project_arn :=
                "arn:aws:rekognition:r:1:project/p/1" |}).
  - vm_compute. reflexivity.
  - vm_compute. lia.
Defined.

Lemma describe_failure_example :
  exists e,
    StartModelFunction.lambda_handler start_world_describe_down start_env []
    = (Raise e,
       [] ++ [StartModelFunction.EvDescribe
                "arn:aws:rekognition:r:1:project/p/1" ["v1"]
                (Raise ClientError)]) /\
    (forall e', Raise (A:=list string) ClientError = Raise e' -> e = e') /\
    (Raise ClientError = Ok ([] : list string) -> e = IndexError) /\
    start_requests
      (StartModelFunction.lambda_handler start_world_describe_down
         start_env []).2
    = start_requests [].
Proof.
  apply (describe_failure_is_fatal start_world_describe_down start_env []
           start_vars "v1").
  - vm_compute. reflexivity.
  - vm_compute. reflexivity.
  - vm_compute. reflexivity.
Defined.

Lemma stop_missing_setting_example :
  exists pre missing post,
    stop_settings = pre ++ missing :: post /\
    Forall (fun k => opt_truthy (stop_env_without_password !! k) = true) pre /\
    opt_truthy (stop_env_without_password !! missing) = false /\
    StopModelFunction.lambda_handler (stop_world (Ok ["RUNNING"])) stop_event
      stop_env_without_password []
    = ({| StopModelFunction.statusCode := 500;
          StopModelFunction.body :=
            Some (missing +:+ " environment variable not set") |}, []).
Proof.
  apply (stop_reports_the_missing_setting (stop_world (Ok ["RUNNING"]))
           stop_event stop_env_without_password [] "Nuxeo_Password").
  - vm_compute. repeat constructor.
  - vm_compute. reflexivity.
Defined.

Lemma stop_short_arn_example :
  StopModelFunction.lambda_handler (stop_world (Ok ["RUNNING"])) stop_event
    stop_env_short_arn []
  = ({| StopModelFunction.statusCode := 500;
        StopModelFunction.body := Some "An unexpected error occurred." |}, []).
Proof.
  apply (stop_short_arn_is_unexpected (stop_world (Ok ["RUNNING"])) stop_event
           stop_env_short_arn []
           {| StopModelFunction.project_version_arn := "arn:model/v1";
              StopModelFunction.project_arn :=
                "arn:aws:rekognition:r:1:project/p/1";
              StopModelFunction.nuxeo_endpoint := "https://nuxeo/api";
              StopModelFunction.nuxeo_username := "svc";
              StopModelFunction.nuxeo_password := "secret" |}).
  - vm_compute. reflexivity.
  - vm_compute. lia.
Defined.

End Lifecycle.

Section Fetch.
Import fetchObjectsAndCreateSQSMessages.

(** The third document has no FullHD view and goes out under the digest of
    the second; the fifth finds the digest ["unknown"] of the fourth and is
    skipped. *)
Example stale_digest_in_a_collection :
  queue_sends fetch_run.2
  = [("https://sqs/incoming", "nike-binary/abc for u1");
     ("https://sqs/incoming", "nike-binary/hd2 for u2");
     ("https://sqs/incoming", "nike-binary/hd2 for u3")].
Proof. vm_compute. reflexivity. Qed.

Lemma enqueued_messages_example :
  exists sent,
    queue_sends
      (process_documents_from (fetch_world fetch_docs) "https://sqs/incoming"
         fetch_docs None []).2
    = queue_sends [] ++ sent /\
    length sent <= length fetch_docs /\
    Forall (fun ub =>
              ub.1 = "https://sqs/incoming" /\
              exists document found uid,
                document ∈ fetch_docs /\
                get document "uid" JNull = Ok uid /\
                eq_str found "unknown" = false /\
                ub.2 = json_dumps (fetch_world fetch_docs)
                         (sqs_payload
                            ("nike-binary/" +:+ format (fetch_world fetch_docs) found)
                            uid))
      sent.
Proof.
  apply (enqueued_messages_are_well_formed (fetch_world fetch_docs)
           "https://sqs/incoming" fetch_docs None []
           (process_documents_from (fetch_world fetch_docs)
              "https://sqs/incoming" fetch_docs None []).1).
  vm_compute. reflexivity.
Defined.

Lemma digest_reuse_example :
  process_document (fetch_world fetch_docs) "https://sqs/incoming"
    (doc_views "u3" [view "Small" "s3"]) (Some (JStr "hd2")) []
  = (Ok (Some (JStr "hd2")),
     [EvSend "https://sqs/incoming" "nike-binary/hd2 for u3" (Ok tt)]).
Proof.
  etrans.
  - apply (digest_of_previous_document_is_reused (fetch_world fetch_docs)
             "https://sqs/incoming"
             (<[ "uid" := JStr "u3" ]>
              {[ "properties" :=
                   JDict {[ "picture:views" := JList [view "Small" "s3"] ]} ]})
             {[ "picture:views" := JList [view "Small" "s3"] ]}
             [view "Small" "s3"] (Some (JStr "hd2")) []).
    + vm_compute. reflexivity.
    + vm_compute. reflexivity.
    + discriminate.
    + repeat constructor.
  - vm_compute. reflexivity.
Defined.

Lemma first_full_hd_example :
  select_digest
    (doc_views "u2" [view "Small" "s1"; view "FullHD" "hd2"; view "FullHD" "hd3"])
    (Some (JStr "abc"))
  = Ok (Some (JStr "hd2")).
Proof.
  etrans.
  - apply (first_full_hd_view_wins
             (<[ "uid" := JStr "u2" ]>
              {[ "properties" :=
                   JDict {[ "picture:views" :=
                              JList [view "Small" "s1"; view "FullHD" "hd2";
                                     view "FullHD" "hd3"] ]} ]})
             {[ "picture:views" :=
                  JList [view "Small" "s1"; view "FullHD" "hd2";
                         view "FullHD" "hd3"] ]}
             (<[ "title" := JStr "FullHD" ]>
              {[ "content" := JDict {[ "digest" := JStr "hd2" ]} ]})
             {[ "digest" := JStr "hd2" ]}
             [view "Small" "s1"] [view "FullHD" "hd3"] (Some (JStr "abc"))).
    + vm_compute. reflexivity.
    + vm_compute. reflexivity.
    + repeat constructor.
    + vm_compute. reflexivity.
    + vm_compute. reflexivity.
  - vm_compute. reflexivity.
Defined.

Lemma fetch_missing_setting_example :
  exists pre missing post,
    fetch_settings = pre ++ missing :: post /\
    Forall (fun k => opt_truthy (fetch_env_without_queue !! k) = true) pre /\
    opt_truthy (fetch_env_without_queue !! missing) = false /\
    lambda_handler (fetch_world fetch_docs) fetch_event fetch_env_without_queue []
    = ({| statusCode := 500;
          body := Error (missing +:+ " environment variable not set") |}, []).
Proof.
  apply (fetch_reports_the_missing_setting (fetch_world fetch_docs) fetch_event
           fetch_env_without_queue [] "SQS_QUEUE_URL").
  - vm_compute. repeat constructor.
  - vm_compute. reflexivity.
Defined.

Lemma enqueue_needs_entries_example :
  exists url username password queue_url collection_id response
         (data : gmap string json) documents,
    get_environment_variable fetch_env "Nuxeo_Endpoint" = Ok url /\
    get_environment_variable fetch_env "Nuxeo_UserName" = Ok username /\
    get_environment_variable fetch_env "Nuxeo_Password" = Ok password /\
    get_environment_variable fetch_env "SQS_QUEUE_URL" = Ok queue_url /\
    fetch_event !! "collectionId" = Some collection_id /\
    requests_post (fetch_world fetch_docs) [] url headers
      {| input := collection_id |} (username, password) 5 = Ok response /\
    error_status (status_code response) = false /\
    json_body response = Ok (JDict data) /\
    data !! "entries" = Some documents /\
    truthy documents = true.
Proof.
  apply (nothing_is_enqueued_without_entries (fetch_world fetch_docs)
           fetch_event fetch_env [] fetch_run.1 fetch_run.2).
  - vm_compute. reflexivity.
  - vm_compute. discriminate.
Defined.

(** The queue refuses every message and the answer is the same. *)
Lemma queue_failures_example :
  (lambda_handler (fetch_world fetch_docs) fetch_event fetch_env []).1
  = (lambda_handler (fetch_world_queue_down fetch_docs) fetch_event fetch_env []).1
  /\
  queue_sends (lambda_handler (fetch_world fetch_docs) fetch_event fetch_env []).2
  = queue_sends
      (lambda_handler (fetch_world_queue_down fetch_docs) fetch_event fetch_env []).2.
Proof.
  apply (queue_failures_are_not_reported (fetch_world fetch_docs)
           (fetch_world_queue_down fetch_docs) fetch_event fetch_env []).
  - reflexivity.
  - reflexivity.
  - reflexivity.
Defined.

End Fetch.

End MoreScenarioFacts.
